(** * Piastrix shop SDK: request signing and callback verification

    A shallow embedding of [piastrixlib.py] (class [PiastrixClient]) and the
    properties of its signing scheme, its response interpretation, its
    extra-field merging and its callback verification. *)

From Stdlib Require Import ZArith List String Ascii Bool Lia Permutation.
From Stdlib Require Import Sorted DecimalString PrimFloat SpecFloat FloatOps.
Import ListNotations.
Set Warnings "-register-all".
Local Open Scope string_scope.
Local Open Scope list_scope.
Local Open Scope Z_scope.

(** ** SHA-256 (FIPS 180-4), the function behind [hashlib.sha256]

    Words are 32-bit integers carried in [Z], every addition is reduced
    modulo 2^32.  The message is a list of bytes. *)
Module SHA256.

Definition wrap (x : Z) : Z := x mod 2 ^ 32.
Definition add32 (x y : Z) : Z := wrap (x + y).
Definition rotr (n x : Z) : Z :=
  Z.lor (Z.shiftr x n) (wrap (Z.shiftl x (32 - n))).
Definition not32 (x : Z) : Z := Z.lxor x 0xffffffff.

Definition Ch (x y z : Z) : Z := Z.lxor (Z.land x y) (Z.land (not32 x) z).
Definition Maj (x y z : Z) : Z :=
  Z.lxor (Z.lxor (Z.land x y) (Z.land x z)) (Z.land y z).
Definition bsig0 (x : Z) : Z := Z.lxor (Z.lxor (rotr 2 x) (rotr 13 x)) (rotr 22 x).
Definition bsig1 (x : Z) : Z := Z.lxor (Z.lxor (rotr 6 x) (rotr 11 x)) (rotr 25 x).
Definition ssig0 (x : Z) : Z := Z.lxor (Z.lxor (rotr 7 x) (rotr 18 x)) (Z.shiftr x 3).
Definition ssig1 (x : Z) : Z := Z.lxor (Z.lxor (rotr 17 x) (rotr 19 x)) (Z.shiftr x 10).

(** Largest [x] below [2 ^ bits] above [acc] with [x ^ 3 <= n], found bit
    by bit from the top. *)
Fixpoint cbrt_bits (bits : nat) (n acc : Z) : Z :=
  match bits with
  | O => acc
  | S b =>
      let cand := acc + 2 ^ Z.of_nat b in
      if cand * cand * cand <=? n then cbrt_bits b n cand else cbrt_bits b n acc
  end.

Definition cbrt (n : Z) : Z := cbrt_bits 48 n 0.

Definition is_prime (n : Z) : bool :=
  forallb (fun d => negb (n mod d =? 0))
          (map Z.of_nat (seq 2 (Z.to_nat n - 2))).

(** The first 64 primes, 2 to 311. *)
Definition primes : list Z :=
  Eval vm_compute in filter is_prime (map Z.of_nat (seq 2 310)).

(** The round constants: the first 32 bits of the fractional parts of the
    cube roots of the first 64 primes. *)
Definition K : list Z :=
  Eval vm_compute in map (fun p => wrap (cbrt (p * 2 ^ 96))) primes.

(** The eight chaining words. *)
Record hstate : Type := H8 { ha : Z; hb : Z; hc : Z; hd : Z;
                             he : Z; hf : Z; hg : Z; hh : Z }.

(** The initial chaining words: the first 32 bits of the fractional parts
    of the square roots of the first 8 primes. *)
Definition H0 : hstate :=
  Eval vm_compute in
    match map (fun p => wrap (Z.sqrt (p * 2 ^ 64))) (firstn 8 primes) with
    | [a; b; c; d; e; f; g; h] => H8 a b c d e f g h
    | _ => H8 0 0 0 0 0 0 0 0
    end.

(** Message schedule.  The window [r] is kept most-recent-first, so that
    W[t-2], W[t-7], W[t-15] and W[t-16] sit at positions 1, 6, 14, 15. *)
Fixpoint expand (n : nat) (r : list Z) : list Z :=
  match n with
  | O => r
  | S n' =>
      let wt := add32 (add32 (add32 (ssig1 (nth 1 r 0)) (nth 6 r 0))
                             (ssig0 (nth 14 r 0))) (nth 15 r 0) in
      expand n' (wt :: r)
  end.

Definition schedule (block : list Z) : list Z := rev (expand 48 (rev block)).

Definition round (s : hstate) (kw : Z * Z) : hstate :=
  let '(k, w) := kw in
  let t1 := add32 (add32 (add32 (add32 (hh s) (bsig1 (he s)))
                                (Ch (he s) (hf s) (hg s))) k) w in
  let t2 := add32 (bsig0 (ha s)) (Maj (ha s) (hb s) (hc s)) in
  H8 (add32 t1 t2) (ha s) (hb s) (hc s) (add32 (hd s) t1) (he s) (hf s) (hg s).

Definition compress (s : hstate) (block : list Z) : hstate :=
  let t := fold_left round (combine K (schedule block)) s in
  H8 (add32 (ha s) (ha t)) (add32 (hb s) (hb t)) (add32 (hc s) (hc t))
     (add32 (hd s) (hd t)) (add32 (he s) (he t)) (add32 (hf s) (hf t))
     (add32 (hg s) (hg t)) (add32 (hh s) (hh t)).

(** Big-endian bytes of [x], [n] of them. *)
Fixpoint be_bytes (n : nat) (x : Z) : list Z :=
  match n with
  | O => []
  | S n' => Z.shiftr x (8 * Z.of_nat n') mod 256 :: be_bytes n' x
  end.

Definition pad (msg : list Z) : list Z :=
  let len := Z.of_nat (List.length msg) in
  msg ++ [0x80] ++ repeat 0 (Z.to_nat ((55 - len) mod 64)) ++ be_bytes 8 (8 * len).

Fixpoint be_word (bs : list Z) (acc : Z) : Z :=
  match bs with
  | [] => acc
  | b :: bs' => be_word bs' (acc * 256 + b)
  end.

Fixpoint words (fuel : nat) (bs : list Z) : list Z :=
  match fuel, bs with
  | S fuel', _ :: _ => be_word (firstn 4 bs) 0 :: words fuel' (skipn 4 bs)
  | _, _ => []
  end.

Fixpoint blocks (fuel : nat) (ws : list Z) : list (list Z) :=
  match fuel, ws with
  | S fuel', _ :: _ => firstn 16 ws :: blocks fuel' (skipn 16 ws)
  | _, _ => []
  end.

Definition digest (msg : list Z) : hstate :=
  let bs := pad msg in
  let ws := words (List.length bs) bs in
  fold_left compress (blocks (List.length ws) ws) H0.

Definition hex_digit (d : Z) : ascii :=
  if d <? 10 then ascii_of_N (Z.to_N (48 + d)) else ascii_of_N (Z.to_N (87 + d)).

Fixpoint hex_of (n : nat) (x : Z) : string :=
  match n with
  | O => EmptyString
  | S n' => String (hex_digit (Z.shiftr x (4 * Z.of_nat n') mod 16)) (hex_of n' x)
  end.

Definition hex_state (s : hstate) : string :=
  (hex_of 8 (ha s) ++ hex_of 8 (hb s) ++ hex_of 8 (hc s) ++ hex_of 8 (hd s) ++
   hex_of 8 (he s) ++ hex_of 8 (hf s) ++ hex_of 8 (hg s) ++ hex_of 8 (hh s))%string.

Definition bytes_of_string (s : string) : list Z :=
  map (fun c => Z.of_N (N_of_ascii c)) (list_ascii_of_string s).

(** [sha256(s.encode('utf-8')).hexdigest()] *)
Definition hexdigest (s : string) : string := hex_state (digest (bytes_of_string s)).

End SHA256.

(** ** Python values

    The values a request envelope, a notification or a JSON response can
    hold.  A [str] is carried as the bytes of its UTF-8 encoding, so that
    [encode('utf-8')] is the identity and the order of [sorted] (by code
    point) is the byte-wise order of [String.compare].  Mapping keys are
    strings, as in a JSON object. *)
Inductive pyval : Type :=
| PNone
| PBool (b : bool)
| PInt (z : Z)
| PFloat (f : float)
| PStr (s : string)
| PList (l : list pyval)
| PDict (d : list (string * pyval)).

(** A [dict] keeps its entries in insertion order (Python 3.7 and later). *)
Definition dict : Type := list (string * pyval).

Module Dict.

(** [d.get(k)] as an option. *)
Fixpoint get {V : Type} (k : string) (d : list (string * V)) : option V :=
  match d with
  | [] => None
  | (k', v) :: d' => if String.eqb k k' then Some v else get k d'
  end.

(** [k in d] *)
Definition contains {V : Type} (k : string) (d : list (string * V)) : bool :=
  match get k d with Some _ => true | None => false end.

(** [d[k] = v]: an existing key keeps its position, a new one goes last. *)
Fixpoint set {V : Type} (k : string) (v : V) (d : list (string * V))
  : list (string * V) :=
  match d with
  | [] => [(k, v)]
  | (k', v') :: d' =>
      if String.eqb k k' then (k', v) :: d' else (k', v') :: set k v d'
  end.

(** [del d[k]] *)
Fixpoint remove {V : Type} (k : string) (d : list (string * V))
  : list (string * V) :=
  match d with
  | [] => []
  | (k', v') :: d' =>
      if String.eqb k k' then remove k d' else (k', v') :: remove k d'
  end.

(** [d.keys()] *)
Definition keys {V : Type} (d : list (string * V)) : list string := map fst d.

(** [d.update(e)] *)
Definition update {V : Type} (d e : list (string * V)) : list (string * V) :=
  fold_left (fun acc kv => set (fst kv) (snd kv) acc) e d.

(** The keys of a Python dict are pairwise distinct. *)
Definition wf {V : Type} (d : list (string * V)) : Prop := NoDup (keys d).

End Dict.

(** *** Equality ([==]) of Python values

    [bool] is a subclass of [int] and numbers compare by value across
    [int] and [float]; a float is compared with an integer exactly.  Lists
    compare item by item, mappings entry by entry whatever their order.
    The identity short-cut of container comparison, which only shows on a
    NaN, is left out. *)
Inductive pynum : Type := NInt (z : Z) | NFloat (f : float).

Definition num_of (v : pyval) : option pynum :=
  match v with
  | PBool b => Some (NInt (if b then 1 else 0))
  | PInt z => Some (NInt z)
  | PFloat f => Some (NFloat f)
  | _ => None
  end.

Definition float_eq_int (f : float) (z : Z) : bool :=
  match Prim2SF f with
  | S754_zero _ => z =? 0
  | S754_finite s m e =>
      let v := if s then Z.neg m else Z.pos m in
      if 0 <=? e then z =? v * 2 ^ e
      else (v mod 2 ^ (- e) =? 0) && (z =? v / 2 ^ (- e))
  | _ => false
  end.

Definition num_eq (x y : pynum) : bool :=
  match x, y with
  | NInt a, NInt b => a =? b
  | NFloat f, NFloat g => PrimFloat.eqb f g
  | NInt a, NFloat g => float_eq_int g a
  | NFloat f, NInt b => float_eq_int f b
  end.

Fixpoint py_eq (a b : pyval) {struct a} : bool :=
  match a, b with
  | PNone, PNone => true
  | PStr s, PStr t => String.eqb s t
  | PList l, PList m =>
      (fix go (l m : list pyval) {struct l} : bool :=
         match l, m with
         | [], [] => true
         | x :: l', y :: m' => py_eq x y && go l' m'
         | _, _ => false
         end) l m
  | PDict d, PDict e =>
      Nat.eqb (List.length d) (List.length e) &&
      (fix all (d : list (string * pyval)) {struct d} : bool :=
         match d with
         | [] => true
         | (k, v) :: d' =>
             match Dict.get k e with
             | Some w => py_eq v w
             | None => false
             end && all d'
         end) d
  | _, _ =>
      match num_of a, num_of b with
      | Some x, Some y => num_eq x y
      | _, _ => false
      end
  end.

(** [a != b] *)
Definition py_ne (a b : pyval) : bool := negb (py_eq a b).

(** [x in xs] for a list or tuple [xs] *)
Definition py_in (x : pyval) (xs : list pyval) : bool :=
  existsb (fun e => py_eq e x) xs.

(** [str(v)] for the scalars whose rendering is fixed by the language:
    [None], booleans, integers and strings.  The [repr] of a float and of
    containers is not modelled. *)
Definition py_str (v : pyval) : option string :=
  match v with
  | PNone => Some "None"
  | PBool true => Some "True"
  | PBool false => Some "False"
  | PInt z => Some (NilZero.string_of_int (Z.to_int z))
  | PStr s => Some s
  | _ => None
  end.

(** ** Exceptions and results *)
Inductive exn : Type :=
| PiastrixClientException (message : pyval) (error_code : pyval)
| KeyError (key : string)
| TypeError
| AttributeError
| RequestException
| HTTPError (status_code : Z)
| JSONDecodeError.

Inductive result (A : Type) : Type :=
| Ok (a : A)
| Raise (e : exn).
Arguments Ok {A} a.
Arguments Raise {A} e.

Definition rbind {A B : Type} (r : result A) (k : A -> result B) : result B :=
  match r with
  | Ok a => k a
  | Raise e => Raise e
  end.

Notation "x <- r ;; k" := (rbind r (fun x => k))
  (at level 61, r at next level, right associativity).

Module PiastrixErrorCode.
Definition ExtraFieldsError : Z := 1000.
Definition IpError : Z := 1001.
Definition SignError : Z := 1002.
Definition ShopAmountError : Z := 1003.
Definition ShopCurrencyError : Z := 1004.
Definition StatusError : Z := 1005.
Definition LanguageError : Z := 1006.
Definition AmountTypeError : Z := 1007.
End PiastrixErrorCode.

Module PiastrixTransferAmountType.
Definition ReceiveAmountType : string := "receive_amount".
Definition WriteoffAmountType : string := "writeoff_amount".
End PiastrixTransferAmountType.

Module PiastrixWithdrawAmountType.
Definition PsAmountType : string := "ps_amount".
Definition ShopAmountType : string := "shop_amount".
End PiastrixWithdrawAmountType.

(** [raise PiastrixClientException(message, code)] with a literal message *)
Definition client_error {A : Type} (message : string) (code : Z) : result A :=
  Raise (PiastrixClientException (PStr message) (PInt code)).

(** ** Built-ins used by the client *)

(** [d[k]] *)
Definition getitem (k : string) (d : dict) : result pyval :=
  match Dict.get k d with
  | Some v => Ok v
  | None => Raise (KeyError k)
  end.

(** [d.pop(k)]: the value and the mapping without the key. *)
Definition pop (k : string) (d : dict) : result (pyval * dict) :=
  match Dict.get k d with
  | Some v => Ok (v, Dict.remove k d)
  | None => Raise (KeyError k)
  end.

(** [sorted(names)] on strings: insertion into an ordered list. *)
Fixpoint insert_sorted (x : string) (l : list string) : list string :=
  match l with
  | [] => [x]
  | y :: l' => if String.leb x y then x :: l else y :: insert_sorted x l'
  end.

Fixpoint sorted (l : list string) : list string :=
  match l with
  | [] => []
  | x :: l' => insert_sorted x (sorted l')
  end.

(** [[data[key] for key in names]]: the first missing key raises. *)
Fixpoint getitems (data : dict) (names : list string) : result (list pyval) :=
  match names with
  | [] => Ok []
  | key :: names' =>
      v <- getitem key data ;;
      vs <- getitems data names' ;;
      Ok (v :: vs)
  end.

(** [sep.join(items)]: every item has to be a [str], else [TypeError]. *)
Fixpoint str_join (sep : string) (items : list pyval) : result string :=
  match items with
  | [] => Ok EmptyString
  | PStr s :: [] => Ok s
  | PStr s :: items' =>
      rest <- str_join sep items' ;;
      Ok (s ++ sep ++ rest)%string
  | _ :: _ => Raise TypeError
  end.

(** ** The client *)
Record PiastrixClient : Type := {
  shop_id : pyval;
  secret_key : string;
  timeout : pyval;
  piastrix_url : string
}.

(** The string that gets hashed: the values of the required fields in the
    order of their sorted names, joined with [':'], then the secret. *)
Definition signed_data (self : PiastrixClient) (data : dict)
  (required_fields : list string) : result string :=
  sorted_data <- getitems data (sorted required_fields) ;;
  joined <- str_join ":" sorted_data ;;
  Ok (joined ++ secret_key self)%string.

(** [_sign]: the mapping with its ['sign'] entry written, or the exception
    raised before the entry is written (the mapping is then untouched).
    Text being carried as UTF-8 bytes and the secret being a string, the
    failures of [encode] on text that has no UTF-8 form and of [+] on a
    secret that is not a string have no counterpart here. *)
Definition _sign (self : PiastrixClient) (data : dict)
  (required_fields : list string) : result dict :=
  signed <- signed_data self data required_fields ;;
  Ok (Dict.set "sign" (PStr (SHA256.hexdigest signed)) data).

(** The digest [_sign] leaves under ['sign'], read back from the mapping. *)
Definition sign_digest (self : PiastrixClient) (data : dict)
  (required_fields : list string) : result pyval :=
  data' <- _sign self data required_fields ;;
  getitem "sign" data'.

(** [_check_extra_fields_keys] *)
Fixpoint check_extra_keys_loop (extra_keys : list string) (req_dict : dict)
  : result unit :=
  match extra_keys with
  | [] => Ok tt
  | key :: rest =>
      if Dict.contains key req_dict
      then client_error
             "Wrong key in extra_fields. Don't use the same keys as req_dict"
             PiastrixErrorCode.ExtraFieldsError
      else check_extra_keys_loop rest req_dict
  end.

Definition _check_extra_fields_keys (extra_fields req_dict : dict)
  : result unit :=
  check_extra_keys_loop (Dict.keys extra_fields) req_dict.

(** The merging step of every operation that takes [extra_fields]:
    [if extra_fields is not None: check; req_dict.update(extra_fields)]. *)
Definition merge_extra_fields (extra_fields : option dict) (req_dict : dict)
  : result dict :=
  match extra_fields with
  | None => Ok req_dict
  | Some extra =>
      _ <- _check_extra_fields_keys extra req_dict ;;
      Ok (Dict.update req_dict extra)
  end.

Definition allowed_ip_address : list pyval :=
  [ PStr "87.98.145.206"; PStr "51.68.53.104"; PStr "51.68.53.105";
    PStr "51.68.53.106"; PStr "51.68.53.107"; PStr "91.121.216.63";
    PStr "37.48.108.180"; PStr "37.48.108.181" ].

(** [[key for key in request_data.keys()
       if request_data[key] not in ['', None]]].  The lookup cannot miss,
    the keys being those of the mapping itself. *)
Definition non_empty_fields (request_data : dict) : list string :=
  filter (fun key =>
            match Dict.get key request_data with
            | Some v => negb (py_in v [PStr ""; PNone])
            | None => false
            end)
         (Dict.keys request_data).

(** [check_callback]: the caller's mapping as the call leaves it, and the
    outcome ([Ok tt] for a plain return). *)
Definition check_callback (self : PiastrixClient) (request_data : dict)
  (remote_ip_address shop_amount shop_currency : pyval)
  : dict * result unit :=
  match pop "sign" request_data with
  | Raise e => (request_data, Raise e)
  | Ok (sign, request_data1) =>
      if negb (py_in remote_ip_address allowed_ip_address)
      then (request_data1,
            client_error "IP address is not in allowed IP addresses"
                         PiastrixErrorCode.IpError)
      else
        let required_fields := non_empty_fields request_data1 in
        match _sign self request_data1 required_fields with
        | Raise e => (request_data1, Raise e)
        | Ok request_data2 =>
            (request_data2,
             own_sign <- getitem "sign" request_data2 ;;
             if py_ne sign own_sign
             then client_error "Wrong sign" PiastrixErrorCode.SignError
             else
               amount <- getitem "shop_amount" request_data2 ;;
               if py_ne shop_amount amount
               then client_error "Wrong shop_amount"
                                 PiastrixErrorCode.ShopAmountError
               else
                 currency <- getitem "shop_currency" request_data2 ;;
                 if py_ne shop_currency currency
                 then client_error "Wrong shop_currency"
                                   PiastrixErrorCode.ShopCurrencyError
                 else
                   status <- getitem "status" request_data2 ;;
                   if py_ne status (PStr "success")
                   then client_error "Wrong status"
                                     PiastrixErrorCode.StatusError
                   else Ok tt)
        end
  end.

(** ** The transport and the operations that use it *)

(** What [requests.post] hands back: a response with its status code and,
    when the body parses, its JSON value; or a failure of the exchange. *)
Inductive http_outcome : Type :=
| Response (status_code : Z) (json : option pyval)
| Failed.

(** One POST as the transport saw it: URL, JSON body, timeout. *)
Definition post_call : Type := (string * dict * pyval)%type.

(** The log of POSTs issued so far. *)
Definition world : Type := list post_call.

(** Computations that may issue POSTs and may raise. *)
Definition io (A : Type) : Type := world -> world * result A.

Definition io_ret {A : Type} (a : A) : io A := fun w => (w, Ok a).
Definition io_lift {A : Type} (r : result A) : io A := fun w => (w, r).
Definition io_bind {A B : Type} (m : io A) (k : A -> io B) : io B :=
  fun w =>
    match m w with
    | (w', Ok a) => k a w'
    | (w', Raise e) => (w', Raise e)
    end.

Notation "x <~ m ;; k" := (io_bind m (fun x => k))
  (at level 61, m at next level, right associativity).

(** [v[k]] on a parsed JSON value: only a mapping takes a string key. *)
Definition subscript (v : pyval) (k : string) : result pyval :=
  match v with
  | PDict d => getitem k d
  | _ => Raise TypeError
  end.

(** [v.get(k)] *)
Definition dict_get (v : pyval) (k : string) : result pyval :=
  match v with
  | PDict d => Ok match Dict.get k d with Some x => x | None => PNone end
  | _ => Raise AttributeError
  end.

(** [v is True] *)
Definition is_True (v : pyval) : bool :=
  match v with
  | PBool true => true
  | _ => false
  end.

(** [response.raise_for_status()] raises on 4xx and 5xx. *)
Definition raise_for_status (status_code : Z) : result unit :=
  if (400 <=? status_code) && (status_code <? 600)
  then Raise (HTTPError status_code)
  else Ok tt.

(** The part of [_post] that follows the exchange. *)
Definition interpret (response : http_outcome) : result pyval :=
  match response with
  | Failed => Raise RequestException
  | Response status_code json =>
      _ <- raise_for_status status_code ;;
      match json with
      | None => Raise JSONDecodeError
      | Some result =>
          flag <- subscript result "result" ;;
          if is_True flag
          then dict_get result "data"
          else
            message <- subscript result "message" ;;
            error_code <- subscript result "error_code" ;;
            Raise (PiastrixClientException message error_code)
      end
  end.

Section Transport.

(** [urllib.parse.urljoin] and [requests.post] are collaborators of the
    client; the operations are stated for any behaviour of theirs. *)
Variable urljoin : string -> string -> string.
Variable requests_post : string -> dict -> pyval -> http_outcome.

Definition _post (self : PiastrixClient) (endpoint : string) (req_dict : dict)
  : io pyval :=
  fun w =>
    let url := urljoin (piastrix_url self) endpoint in
    let response := requests_post url req_dict (timeout self) in
    (w ++ [(url, req_dict, timeout self)], interpret response).

Definition bill (self : PiastrixClient)
  (payer_currency shop_amount shop_currency shop_order_id : pyval)
  (extra_fields : option dict) : io pyval :=
  let required_fields :=
    ["payer_currency"; "shop_amount"; "shop_currency"; "shop_id";
     "shop_order_id"] in
  let req_dict :=
    [ ("payer_currency", payer_currency); ("shop_amount", shop_amount);
      ("shop_currency", shop_currency); ("shop_id", shop_id self);
      ("shop_order_id", shop_order_id) ] in
  req_dict <~ io_lift (merge_extra_fields extra_fields req_dict) ;;
  req_dict <~ io_lift (_sign self req_dict required_fields) ;;
  _post self "bill/create" req_dict.

Definition transfer (self : PiastrixClient)
  (amount amount_type payee_account payee_currency shop_currency
   shop_payment_id : pyval) (extra_fields : option dict) : io pyval :=
  let required_fields :=
    ["amount"; "amount_type"; "payee_account"; "payee_currency";
     "shop_currency"; "shop_id"; "shop_payment_id"] in
  let req_dict :=
    [ ("amount", amount); ("amount_type", amount_type);
      ("payee_account", payee_account); ("payee_currency", payee_currency);
      ("shop_currency", shop_currency); ("shop_id", shop_id self);
      ("shop_payment_id", shop_payment_id) ] in
  req_dict <~ io_lift (merge_extra_fields extra_fields req_dict) ;;
  if negb (py_in amount_type
             [PStr PiastrixTransferAmountType.ReceiveAmountType;
              PStr PiastrixTransferAmountType.WriteoffAmountType])
  then io_lift (client_error "Wrong amount_type"
                             PiastrixErrorCode.AmountTypeError)
  else
    req_dict <~ io_lift (_sign self req_dict required_fields) ;;
    _post self "transfer/create" req_dict.

Definition withdraw_try (self : PiastrixClient)
  (amount amount_type payway shop_currency : pyval) : io pyval :=
  let required_fields :=
    ["amount"; "amount_type"; "payway"; "shop_currency"; "shop_id"] in
  let req_dict :=
    [ ("amount", amount); ("amount_type", amount_type); ("payway", payway);
      ("shop_currency", shop_currency); ("shop_id", shop_id self) ] in
  if negb (py_in amount_type
             [PStr PiastrixWithdrawAmountType.PsAmountType;
              PStr PiastrixWithdrawAmountType.ShopAmountType])
  then io_lift (client_error "Wrong amount_type"
                             PiastrixErrorCode.AmountTypeError)
  else
    req_dict <~ io_lift (_sign self req_dict required_fields) ;;
    _post self "withdraw/try" req_dict.

Definition withdraw (self : PiastrixClient)
  (account amount amount_type payway shop_currency shop_payment_id : pyval)
  (account_details : option pyval) (extra_fields : option dict) : io pyval :=
  let required_fields :=
    ["account"; "amount"; "amount_type"; "payway"; "shop_currency";
     "shop_id"; "shop_payment_id"] in
  let req_dict :=
    [ ("account", account); ("amount", amount); ("amount_type", amount_type);
      ("payway", payway); ("shop_currency", shop_currency);
      ("shop_id", shop_id self); ("shop_payment_id", shop_payment_id) ] in
  let req_dict :=
    match account_details with
    | Some details => Dict.set "account_details" details req_dict
    | None => req_dict
    end in
  req_dict <~ io_lift (merge_extra_fields extra_fields req_dict) ;;
  if negb (py_in amount_type
             [PStr PiastrixWithdrawAmountType.PsAmountType;
              PStr PiastrixWithdrawAmountType.ShopAmountType])
  then io_lift (client_error "Wrong amount_type"
                             PiastrixErrorCode.AmountTypeError)
  else
    req_dict <~ io_lift (_sign self req_dict required_fields) ;;
    _post self "withdraw/create" req_dict.

(** [pay] builds the form and its target; it never reaches [_post]. *)
Definition pay (self : PiastrixClient) (amount currency shop_order_id : pyval)
  (extra_fields : option dict) (lang : string) : io (dict * string) :=
  if negb (py_in (PStr lang) [PStr "ru"; PStr "en"])
  then io_lift (Raise (PiastrixClientException
                         (PStr (lang ++ " is not valid language")%string)
                         (PInt PiastrixErrorCode.LanguageError)))
  else
    let required_fields := ["amount"; "currency"; "shop_id"; "shop_order_id"] in
    let form_data :=
      [ ("amount", amount); ("shop_id", shop_id self); ("currency", currency);
        ("shop_order_id", shop_order_id) ] in
    form_data <~ io_lift (merge_extra_fields extra_fields form_data) ;;
    form_data <~ io_lift (_sign self form_data required_fields) ;;
    let url := ("https://pay.piastrix.com/" ++ lang ++ "/pay")%string in
    io_ret (form_data, url).

(** [str(datetime.now())] as the call reads it. *)
Variable now : string.

Definition check_balance (self : PiastrixClient) : io pyval :=
  let required_fields := ["now"; "shop_id"] in
  let req_dict := [ ("now", PStr now); ("shop_id", shop_id self) ] in
  req_dict <~ io_lift (_sign self req_dict required_fields) ;;
  _post self "shop_balance" req_dict.

Definition invoice_try (self : PiastrixClient)
  (amount currency shop_order_id payway : pyval) (extra_fields : option dict)
  : io pyval :=
  let required_fields :=
    ["amount"; "currency"; "shop_id"; "payway"; "shop_order_id"] in
  let req_dict :=
    [ ("amount", amount); ("currency", currency); ("shop_id", shop_id self);
      ("payway", payway); ("shop_order_id", shop_order_id) ] in
  req_dict <~ io_lift (merge_extra_fields extra_fields req_dict) ;;
  req_dict <~ io_lift (_sign self req_dict required_fields) ;;
  _post self "invoice/try" req_dict.

Definition invoice (self : PiastrixClient)
  (amount currency shop_order_id payway : pyval) (extra_fields : option dict)
  : io pyval :=
  let required_fields :=
    ["amount"; "currency"; "shop_id"; "payway"; "shop_order_id"] in
  let req_dict :=
    [ ("amount", amount); ("currency", currency); ("shop_id", shop_id self);
      ("payway", payway); ("shop_order_id", shop_order_id) ] in
  req_dict <~ io_lift (merge_extra_fields extra_fields req_dict) ;;
  req_dict <~ io_lift (_sign self req_dict required_fields) ;;
  _post self "invoice/create" req_dict.

Definition transfer_status (self : PiastrixClient) (shop_payment_id : pyval)
  : io pyval :=
  let required_fields := ["now"; "shop_id"; "shop_payment_id"] in
  let req_dict :=
    [ ("now", PStr now); ("shop_id", shop_id self);
      ("shop_payment_id", shop_payment_id) ] in
  req_dict <~ io_lift (_sign self req_dict required_fields) ;;
  _post self "transfer/shop_payment_status" req_dict.

Definition check_account (self : PiastrixClient)
  (account amount payway : pyval) (account_details : option pyval)
  : io pyval :=
  let required_fields := ["account"; "amount"; "payway"; "shop_id"] in
  let req_dict :=
    [ ("account", account); ("amount", amount); ("payway", payway);
      ("shop_id", shop_id self) ] in
  let req_dict :=
    match account_details with
    | Some details => Dict.set "account_details" details req_dict
    | None => req_dict
    end in
  req_dict <~ io_lift (_sign self req_dict required_fields) ;;
  _post self "check_account" req_dict.

Definition withdraw_id (self : PiastrixClient) (withdraw_id : pyval)
  : io pyval :=
  let required_fields := ["now"; "shop_id"; "withdraw_id"] in
  let req_dict :=
    [ ("now", PStr now); ("shop_id", shop_id self);
      ("withdraw_id", withdraw_id) ] in
  req_dict <~ io_lift (_sign self req_dict required_fields) ;;
  _post self "withdraw/status" req_dict.

Definition shop_payment_id (self : PiastrixClient) (shop_payment_id : pyval)
  : io pyval :=
  let required_fields := ["now"; "shop_id"; "shop_payment_id"] in
  let req_dict :=
    [ ("now", PStr now); ("shop_id", shop_id self);
      ("shop_payment_id", shop_payment_id) ] in
  req_dict <~ io_lift (_sign self req_dict required_fields) ;;
  _post self "withdraw/shop_payment_status" req_dict.

End Transport.

(** ** Notions used to state the properties *)

(** The signature formula as the specification words it:
    [hex(SHA256(join(':', [str(fields[k]) for k in sorted(names)]) + secret))],
    every value being coerced with [str]. *)
Fixpoint spec_values (fields : dict) (names : list string) : option (list string) :=
  match names with
  | [] => Some []
  | k :: names' =>
      match Dict.get k fields, spec_values fields names' with
      | Some v, Some vs =>
          match py_str v with
          | Some s => Some (s :: vs)
          | None => None
          end
      | _, _ => None
      end
  end.

Definition spec_signature (secret : string) (fields : dict)
  (requiredFieldNames : list string) : option string :=
  match spec_values fields (sorted requiredFieldNames) with
  | Some vs => Some (SHA256.hexdigest (String.concat ":" vs ++ secret)%string)
  | None => None
  end.

(** Non-decreasing for the order [sorted] uses. *)
Definition ordered : list string -> Prop :=
  StronglySorted (fun a b => String.leb a b = true).

(** The checks that follow the recomputation, on the notification's own
    entries. *)
Definition callback_checks (notification : dict)
  (sign own shop_amount shop_currency : pyval) : result unit :=
  if py_ne sign own
  then client_error "Wrong sign" PiastrixErrorCode.SignError
  else
    amount <- getitem "shop_amount" notification ;;
    if py_ne shop_amount amount
    then client_error "Wrong shop_amount" PiastrixErrorCode.ShopAmountError
    else
      currency <- getitem "shop_currency" notification ;;
      if py_ne shop_currency currency
      then client_error "Wrong shop_currency" PiastrixErrorCode.ShopCurrencyError
      else
        status <- getitem "status" notification ;;
        if py_ne status (PStr "success")
        then client_error "Wrong status" PiastrixErrorCode.StatusError
        else Ok tt.

(** Some key of [extra_fields] is one of [names]. *)
Definition collides (extra_fields : option dict) (names : list string) : bool :=
  match extra_fields with
  | None => false
  | Some extra =>
      existsb (fun k => existsb (String.eqb k) names) (Dict.keys extra)
  end.

(** The signature [check_callback] recomputes for a notification: signing
    of the notification without its ['sign'] entry over its non-empty
    fields. *)
Definition recomputed_sign (self : PiastrixClient) (notification : dict)
  : result pyval :=
  let rest := Dict.remove "sign" notification in
  sign_digest self rest (non_empty_fields rest).

Definition ExtraFieldsConflict : exn :=
  PiastrixClientException
    (PStr "Wrong key in extra_fields. Don't use the same keys as req_dict")
    (PInt PiastrixErrorCode.ExtraFieldsError).

Definition InvalidAmountType : exn :=
  PiastrixClientException (PStr "Wrong amount_type")
                          (PInt PiastrixErrorCode.AmountTypeError).

(** *** Concrete data for the examples *)
Definition demo_client : PiastrixClient :=
  {| shop_id := PStr "5"; secret_key := "secret"; timeout := PInt 10;
     piastrix_url := "https://core.piastrix.com/" |}.

Definition demo_urljoin (base endpoint : string) : string :=
  (base ++ endpoint)%string.

Definition demo_post (response : http_outcome)
  : string -> dict -> pyval -> http_outcome :=
  fun _ _ _ => response.

Definition a_times (n : nat) : string := string_of_list_ascii (repeat "a"%char n).

(** A notification carrying the signature of its own fields under the
    secret of [demo_client]. *)
Definition demo_notification : dict :=
  [ ("shop_amount", PStr "1.00"); ("shop_currency", PStr "643");
    ("status", PStr "success"); ("comment", PStr ""); ("payway", PNone);
    ("sign",
     PStr "d670e6c490574355fc4929e9d8480f2e7a9a8f1842a690e1d77f7505fe8b9e7f") ].

(** *** Notions for the further properties *)

Fixpoint string_forall (p : ascii -> bool) (s : string) : bool :=
  match s with
  | EmptyString => true
  | String c s' => p c && string_forall p s'
  end.

Definition is_lower_hex (c : ascii) : bool :=
  existsb (Ascii.eqb c) (list_ascii_of_string "0123456789abcdef").

(** What a signature looks like: 64 lowercase hexadecimal digits. *)
Definition is_signature (v : pyval) : Prop :=
  exists g, v = PStr g /\ String.length g = 64%nat /\
            string_forall is_lower_hex g = true.

(** The request mapping once the extra fields are merged in. *)
Definition with_extra (extra_fields : option dict) (req_dict : dict) : dict :=
  match extra_fields with
  | Some extra => Dict.update req_dict extra
  | None => req_dict
  end.

(** The effect on the log of a call that sends nothing, or one request
    whose body carries a signature. *)
Definition sends_only_signed {A : Type} (m : io A) : Prop :=
  forall w, fst (m w) = w \/
            exists url body t sign,
              fst (m w) = w ++ [(url, body, t)] /\
              Dict.get "sign" body = Some sign /\ is_signature sign.

(** The effect on the log of a call that sends nothing. *)
Definition sends_nothing {A : Type} (m : io A) : Prop :=
  forall w, fst (m w) = w.

(** A request as the transport is handed it, with what [_post] makes of
    the response. *)
Definition sent (urljoin : string -> string -> string)
  (requests_post : string -> dict -> pyval -> http_outcome)
  (self : PiastrixClient) (endpoint : string) (body : dict) (w : world)
  : world * result pyval :=
  let url := urljoin (piastrix_url self) endpoint in
  (w ++ [(url, body, timeout self)],
   interpret (requests_post url body (timeout self))).

(** The body that goes out: the fields with the digest of the joined
    values and the secret under ['sign']. *)
Definition signed_body (self : PiastrixClient) (values : list string)
  (fields : dict) : dict :=
  Dict.set "sign"
    (PStr (SHA256.hexdigest (String.concat ":" values ++ secret_key self)%string))
    fields.

(** A notification whose amount and currency are JSON numbers, carrying
    the signature the specified formula gives for its fields,
    [sha256("10:643:success" + "secret")]. *)
Definition numeric_notification : dict :=
  [ ("shop_amount", PInt 10); ("shop_currency", PInt 643);
    ("status", PStr "success");
    ("sign",
     PStr "d0d428ebd1f8541d3626f60c96364d57c6b33254cc3842062c850312250f8695") ].

(** A client configured with an integer shop identifier. *)
Definition int_client : PiastrixClient :=
  {| shop_id := PInt 5; secret_key := "secret"; timeout := PInt 10;
     piastrix_url := "https://core.piastrix.com/" |}.

(** * Properties *)

(** ** SHA-256 test vectors *)

Example sha256_empty :
  SHA256.hexdigest "" =
  "e3b0c44298fc1c149afbf4c8996fb92427ae41e4649b934ca495991b7852b855".
Proof. vm_compute. reflexivity. Qed.

Example sha256_abc :
  SHA256.hexdigest "abc" =
  "ba7816bf8f01cfea414140de5dae2223b00361a396177a9cb410ff61f20015ad".
Proof. vm_compute. reflexivity. Qed.

Example sha256_a55 :
  SHA256.hexdigest (a_times 55) =
  "9f4390f8d30c2dd92ec9f095b65e2b9ae9b0a925a5258e241c9f1e910f734318".
Proof. vm_compute. reflexivity. Qed.

Example sha256_a56 :
  SHA256.hexdigest (a_times 56) =
  "b35439a4ac6f0948b6d6f9e3c6af0f5f590ce20f1bde7090ef7970686ec6738a".
Proof. vm_compute. reflexivity. Qed.

Example sha256_a119 :
  SHA256.hexdigest (a_times 119) =
  "31eba51c313a5c08226adf18d4a359cfdfd8d2e816b13f4af952f7ea6584dcfb".
Proof. vm_compute. reflexivity. Qed.

(** ** Strings *)

Lemma string_leb_trans (a b c : string) :
  String.leb a b = true -> String.leb b c = true -> String.leb a c = true.
Proof.
  unfold String.leb. revert b c.
  induction a as [|x a IH]; intros [|y b] [|z c]; simpl; try congruence.
  unfold Ascii.compare.
  destruct (N.compare_spec (N_of_ascii x) (N_of_ascii y)) as [E1|L1|G1];
    destruct (N.compare_spec (N_of_ascii y) (N_of_ascii z)) as [E2|L2|G2];
    destruct (N.compare_spec (N_of_ascii x) (N_of_ascii z)) as [E3|L3|G3];
    try congruence; try lia.
  apply IH.
Qed.

Lemma string_length_app (s t : string) :
  String.length (s ++ t) = (String.length s + String.length t)%nat.
Proof. induction s as [|c s IH]; simpl; [reflexivity | now rewrite IH]. Qed.

Lemma string_app_assoc (s t u : string) : ((s ++ t) ++ u = s ++ (t ++ u))%string.
Proof. induction s as [|c s IH]; simpl; [reflexivity | now rewrite IH]. Qed.

Lemma string_app_inv_head (p s t : string) : (p ++ s = p ++ t)%string -> s = t.
Proof. induction p as [|c p IH]; simpl; intros H; [assumption | injection H; auto]. Qed.

Lemma string_app_same_length (s s' t t' : string) :
  (s ++ t = s' ++ t')%string -> String.length s = String.length s' -> s = s'.
Proof.
  revert s'. induction s as [|c s IH]; intros [|c' s']; simpl; try discriminate.
  - reflexivity.
  - intros H L. injection H as -> H. f_equal. apply IH; [assumption | lia].
Qed.

Lemma string_app_inv_tail (s s' t : string) : (s ++ t = s' ++ t)%string -> s = s'.
Proof.
  intros H. apply (string_app_same_length _ _ _ _ H).
  apply (f_equal String.length) in H. rewrite !string_length_app in H. lia.
Qed.

(** ** Mappings *)

Lemma get_set_eq {V} (k : string) (v : V) d : Dict.get k (Dict.set k v d) = Some v.
Proof.
  induction d as [|[k' v'] d IH]; simpl.
  - now rewrite String.eqb_refl.
  - destruct (String.eqb k k') eqn:E; simpl; rewrite E; auto.
Qed.

Lemma get_set_neq {V} (k k' : string) (v : V) d :
  k' <> k -> Dict.get k' (Dict.set k v d) = Dict.get k' d.
Proof.
  intros N. induction d as [|[k0 v0] d IH]; simpl.
  - apply String.eqb_neq in N. now rewrite N.
  - destruct (String.eqb_spec k k0) as [<-|E]; simpl.
    + apply String.eqb_neq in N. now rewrite N.
    + now rewrite IH.
Qed.

Lemma get_remove_eq {V} (k : string) (d : list (string * V)) :
  Dict.get k (Dict.remove k d) = None.
Proof.
  induction d as [|[k0 v0] d IH]; simpl; [reflexivity|].
  destruct (String.eqb k k0) eqn:E; simpl; [assumption | now rewrite E].
Qed.

Lemma get_remove_neq {V} (k k' : string) (d : list (string * V)) :
  k' <> k -> Dict.get k' (Dict.remove k d) = Dict.get k' d.
Proof.
  intros N. induction d as [|[k0 v0] d IH]; simpl; [reflexivity|].
  destruct (String.eqb k k0) eqn:E; simpl.
  - apply String.eqb_eq in E. subst k0.
    apply String.eqb_neq in N. now rewrite N.
  - now rewrite IH.
Qed.

Lemma get_none_not_key {V} (k : string) (d : list (string * V)) :
  Dict.get k d = None <-> ~ In k (Dict.keys d).
Proof.
  induction d as [|[k0 v0] d IH]; simpl.
  - tauto.
  - destruct (String.eqb_spec k k0) as [->|N].
    + split; [discriminate | intros H; exfalso; apply H; now left].
    + rewrite IH. split; [intros H [E|I]; [congruence | tauto] | tauto].
Qed.

Lemma contains_key {V} (k : string) (d : list (string * V)) :
  Dict.contains k d = true <-> In k (Dict.keys d).
Proof.
  unfold Dict.contains. pose proof (get_none_not_key k d) as H.
  destruct (Dict.get k d).
  - split; [intros _ | reflexivity].
    destruct (in_dec string_dec k (Dict.keys d)) as [I|N]; [assumption|].
    apply H in N. discriminate.
  - split; [discriminate | intros I]. exfalso. now apply H.
Qed.

Lemma set_absent {V} (k : string) (v : V) d :
  Dict.get k d = None -> Dict.set k v d = d ++ [(k, v)].
Proof.
  induction d as [|[k0 v0] d IH]; simpl; [reflexivity|].
  destruct (String.eqb k k0); [discriminate|].
  intros H. now rewrite IH.
Qed.

Lemma get_app {V} (k : string) (d e : list (string * V)) :
  Dict.get k (d ++ e) =
  match Dict.get k d with Some v => Some v | None => Dict.get k e end.
Proof.
  induction d as [|[k0 v0] d IH]; simpl; [reflexivity|].
  now destruct (String.eqb k k0).
Qed.

(** On a mapping with distinct keys the lookup does not depend on the
    order of the entries. *)
Lemma get_in {V} (k : string) (v : V) d :
  Dict.wf d -> In (k, v) d -> Dict.get k d = Some v.
Proof.
  unfold Dict.wf, Dict.keys.
  induction d as [|[k0 v0] d IH]; simpl; [tauto|].
  intros W [E|I].
  - injection E as -> ->. now rewrite String.eqb_refl.
  - inversion W as [|? ? N W']; subst.
    destruct (String.eqb_spec k k0) as [->|_].
    + exfalso. apply N. change k0 with (fst (k0, v)). now apply in_map.
    + now apply IH.
Qed.

Lemma get_some_in {V} (k : string) (v : V) d : Dict.get k d = Some v -> In (k, v) d.
Proof.
  induction d as [|[k0 v0] d IH]; simpl; [discriminate|].
  destruct (String.eqb_spec k k0) as [->|_].
  - intros E. injection E as ->. now left.
  - intros E. right. now apply IH.
Qed.

Lemma get_permutation {V} (k : string) (d e : list (string * V)) :
  Dict.wf d -> Permutation d e -> Dict.get k d = Dict.get k e.
Proof.
  intros W P.
  assert (We : Dict.wf e).
  { unfold Dict.wf, Dict.keys in *.
    eapply Permutation_NoDup; [apply Permutation_map; eassumption | assumption]. }
  destruct (Dict.get k d) as [v|] eqn:Ed.
  - symmetry. apply get_in; [assumption|].
    eapply Permutation_in; [eassumption | now apply get_some_in].
  - destruct (Dict.get k e) as [w|] eqn:Ee; [|reflexivity].
    apply get_some_in in Ee. apply Permutation_sym in P.
    pose proof (Permutation_in _ P Ee) as I.
    apply (get_in _ _ _ W) in I. congruence.
Qed.

(** ** [sorted] *)

Lemma insert_sorted_perm (x : string) l : Permutation (insert_sorted x l) (x :: l).
Proof.
  induction l as [|y l IH]; simpl; [reflexivity|].
  destruct (String.leb x y); [reflexivity|].
  rewrite IH. apply perm_swap.
Qed.

Lemma sorted_perm l : Permutation (sorted l) l.
Proof.
  induction l as [|x l IH]; simpl; [reflexivity|].
  rewrite insert_sorted_perm. now constructor.
Qed.

Lemma insert_sorted_ordered (x : string) l : ordered l -> ordered (insert_sorted x l).
Proof.
  unfold ordered. induction l as [|y l IH]; simpl; intros O.
  - constructor; [constructor | constructor].
  - inversion O as [|? ? O' F]; subst.
    destruct (String.leb x y) eqn:E.
    + constructor; [assumption|]. constructor; [assumption|].
      eapply Forall_impl; [|exact F]. intros z Hz.
      eapply string_leb_trans; eassumption.
    + constructor; [now apply IH|].
      eapply Permutation_Forall; [symmetry; apply insert_sorted_perm|].
      constructor; [|assumption].
      destruct (String.leb_total x y) as [H|H]; congruence.
Qed.

Lemma sorted_ordered l : ordered (sorted l).
Proof.
  induction l as [|x l IH]; simpl; [constructor | now apply insert_sorted_ordered].
Qed.

Lemma ordered_perm_eq l1 : forall l2, ordered l1 -> ordered l2 -> Permutation l1 l2 -> l1 = l2.
Proof.
  unfold ordered. induction l1 as [|a l1 IH]; intros l2 O1 O2 P.
  - apply Permutation_nil in P. now subst.
  - destruct l2 as [|b l2].
    + apply Permutation_sym, Permutation_nil in P. discriminate.
    + inversion O1 as [|? ? O1' F1]; inversion O2 as [|? ? O2' F2]; subst.
      assert (E : a = b).
      { assert (Ia : In a (b :: l2)) by (eapply Permutation_in; [exact P | now left]).
        assert (Ib : In b (a :: l1))
          by (eapply Permutation_in; [symmetry; exact P | now left]).
        destruct Ia as [->|Ia]; [reflexivity|].
        destruct Ib as [->|Ib]; [reflexivity|].
        rewrite Forall_forall in F1, F2.
        apply String.leb_antisym; auto. }
      subst b. f_equal. apply IH; try assumption.
      eapply Permutation_cons_inv; exact P.
Qed.

(** The sorted list depends on the names only, not on their order. *)
Lemma sorted_permutation l l' : Permutation l l' -> sorted l = sorted l'.
Proof.
  intros P. apply ordered_perm_eq; try apply sorted_ordered.
  rewrite !sorted_perm. exact P.
Qed.

Lemma sorted_in (k : string) l : In k (sorted l) <-> In k l.
Proof.
  split; apply Permutation_in; [apply sorted_perm | symmetry; apply sorted_perm].
Qed.

(** ** Reading and joining the required values *)

Lemma getitems_ext (d1 d2 : dict) names :
  (forall k, In k names -> Dict.get k d1 = Dict.get k d2) ->
  getitems d1 names = getitems d2 names.
Proof.
  induction names as [|k names IH]; simpl; intros H; [reflexivity|].
  unfold getitem. rewrite (H k) by now left.
  rewrite IH by (intros; apply H; now right). reflexivity.
Qed.

Lemma str_join_strings (sep : string) (l : list string) :
  str_join sep (map PStr l) = Ok (String.concat sep l).
Proof.
  induction l as [|s l IH]; [reflexivity|].
  destruct l as [|t l]; [reflexivity|].
  change (str_join sep (map PStr (s :: t :: l)))
    with (rest <- str_join sep (map PStr (t :: l)) ;; Ok (s ++ sep ++ rest)%string).
  rewrite IH. reflexivity.
Qed.

(** Reading string-valued fields: the values come back in order. *)
Lemma getitems_strings (d : dict) names :
  (forall k, In k names -> exists s, Dict.get k d = Some (PStr s)) ->
  exists l, getitems d names = Ok (map PStr l) /\ spec_values d names = Some l.
Proof.
  induction names as [|k names IH]; simpl; intros H.
  - exists []. split; reflexivity.
  - destruct (H k) as [s Hs]; [now left|].
    destruct IH as [l [Hl Sl]]; [intros; apply H; now right|].
    exists (s :: l). unfold getitem. rewrite Hs, Sl. simpl. rewrite Hl. split; reflexivity.
Qed.

Lemma sign_digest_signed (self : PiastrixClient) (data : dict) req :
  sign_digest self data req =
  (signed <- signed_data self data req ;; Ok (PStr (SHA256.hexdigest signed))).
Proof.
  unfold sign_digest, _sign.
  destruct (signed_data self data req) as [m|e]; simpl; [|reflexivity].
  unfold getitem. now rewrite get_set_eq.
Qed.

Lemma sign_ok_digest (self : PiastrixClient) (data data' : dict) req :
  _sign self data req = Ok data' ->
  exists g, sign_digest self data req = Ok g /\ data' = Dict.set "sign" g data.
Proof.
  unfold sign_digest, _sign.
  destruct (signed_data self data req) as [m|e]; simpl; [|discriminate].
  intros E. injection E as <-. eexists. split; [|reflexivity].
  unfold getitem. now rewrite get_set_eq.
Qed.

Lemma sign_digest_ok (self : PiastrixClient) (data : dict) req g :
  sign_digest self data req = Ok g ->
  _sign self data req = Ok (Dict.set "sign" g data).
Proof.
  rewrite sign_digest_signed. unfold _sign.
  destruct (signed_data self data req) as [m|e]; simpl; [|discriminate].
  intros E. now injection E as <-.
Qed.

Lemma sign_digest_raise (self : PiastrixClient) (data : dict) req e :
  sign_digest self data req = Raise e -> _sign self data req = Raise e.
Proof.
  rewrite sign_digest_signed. unfold _sign.
  destruct (signed_data self data req) as [m|e']; simpl; [discriminate|].
  intros E. now injection E as <-.
Qed.

(** On string-valued required fields the code computes the specified
    signature. *)
Lemma sign_digest_spec_on_strings (self : PiastrixClient) (data : dict) req :
  (forall k, In k req -> exists s, Dict.get k data = Some (PStr s)) ->
  exists h, spec_signature (secret_key self) data req = Some h /\
            sign_digest self data req = Ok (PStr h).
Proof.
  intros H.
  destruct (getitems_strings data (sorted req)) as [l [Hl Sl]].
  { intros k I. apply H. now apply sorted_in. }
  rewrite sign_digest_signed. unfold spec_signature, signed_data.
  rewrite Sl, Hl. simpl. rewrite str_join_strings. simpl.
  eexists. split; reflexivity.
Qed.

(** C1, at the input where the code departs from the specified formula:
    with the integer value [1] under a required field, [_sign] raises
    [TypeError] out of [str.join] and writes no signature, where the formula
    coerces the value with [str] and hashes ["1" + secret]; the same happens
    to [bill] called with the integer and float arguments its docstring
    documents, before any request is sent. *)
Theorem sign_rejects_integer_value :
  _sign demo_client [("a", PInt 1)] ["a"] = Raise TypeError /\
  spec_signature (secret_key demo_client) [("a", PInt 1)] ["a"] =
    Some "a4b9775cad7a19b8563ecf41994868f50ef75403a5942788b15410305be762be" /\
  bill demo_urljoin (demo_post Failed) demo_client
       (PInt 643) (PFloat 10.5%float) (PInt 643) (PStr "order-1") None [] =
    ([], Raise TypeError).
Proof. repeat split; vm_compute; reflexivity. Qed.

(** C3: the signature is a function of the required fields' values and
    the secret.  Two mappings that agree on every required field get the
    same digest (or fail alike), in whatever order the required names are
    listed; signing identical inputs twice is the case [d1 = d2], and
    reordering the entries of the mapping does not change the digest. *)
Theorem sign_depends_on_required_values (self : PiastrixClient)
  (d1 d2 : dict) (req1 req2 : list string) :
  Permutation req1 req2 ->
  (forall k, In k req1 -> Dict.get k d1 = Dict.get k d2) ->
  sign_digest self d1 req1 = sign_digest self d2 req2 /\
  (forall d3, Dict.wf d1 -> Permutation d1 d3 ->
              sign_digest self d3 req1 = sign_digest self d1 req1).
Proof.
  intros P A.
  assert (G : forall (a b : dict) ra rb,
             Permutation ra rb ->
             (forall k, In k ra -> Dict.get k a = Dict.get k b) ->
             sign_digest self a ra = sign_digest self b rb).
  { intros a b ra rb Pab Aab. rewrite !sign_digest_signed. unfold signed_data.
    rewrite <- (sorted_permutation ra rb Pab).
    rewrite (getitems_ext a b (sorted ra)); [reflexivity|].
    intros k I. apply Aab. now apply sorted_in. }
  split; [now apply G|].
  intros d3 W P3. apply G; [reflexivity|].
  intros k _. symmetry. now apply get_permutation.
Qed.

Lemma sign_depends_on_required_values_witness :
  sign_digest demo_client
    [("a", PStr "1"); ("b", PStr "23"); ("note", PStr "x")] ["a"; "b"] =
  sign_digest demo_client
    [("note", PInt 7); ("b", PStr "23"); ("a", PStr "1")] ["b"; "a"].
Proof.
  refine (proj1 (sign_depends_on_required_values demo_client
                   [("a", PStr "1"); ("b", PStr "23"); ("note", PStr "x")]
                   [("note", PInt 7); ("b", PStr "23"); ("a", PStr "1")]
                   ["a"; "b"] ["b"; "a"] _ _)).
  - apply perm_swap.
  - intros k [<-|[<-|[]]]; reflexivity.
Defined.

(** C4: a notification without a ['sign'] entry makes [check_callback]
    fail at once, whatever the other arguments, with the [KeyError] of
    [dict.pop] and with the mapping untouched.  The failure is the built-in
    lookup error, not a [PiastrixClientException]. *)
Theorem check_callback_without_sign (self : PiastrixClient) (request_data : dict)
  (remote_ip_address shop_amount shop_currency : pyval) :
  Dict.get "sign" request_data = None ->
  check_callback self request_data remote_ip_address shop_amount shop_currency =
    (request_data, Raise (KeyError "sign")) /\
  forall message error_code,
    snd (check_callback self request_data remote_ip_address shop_amount
                        shop_currency)
    <> Raise (PiastrixClientException message error_code).
Proof.
  intros H. unfold check_callback, pop. rewrite H. split; [reflexivity|].
  simpl. discriminate.
Qed.

Lemma check_callback_without_sign_witness :
  check_callback demo_client
    [("shop_amount", PStr "1.00"); ("status", PStr "success")]
    (PStr "87.98.145.206") (PStr "1.00") (PStr "643") =
  ([("shop_amount", PStr "1.00"); ("status", PStr "success")],
   Raise (KeyError "sign")).
Proof.
  refine (proj1 (check_callback_without_sign demo_client
                   [("shop_amount", PStr "1.00"); ("status", PStr "success")]
                   _ _ _ _)).
  reflexivity.
Defined.

(** ** Merging extra fields *)

Lemma check_extra_keys_loop_spec (ks : list string) (req_dict : dict) :
  check_extra_keys_loop ks req_dict =
  if existsb (fun k => Dict.contains k req_dict) ks
  then Raise ExtraFieldsConflict else Ok tt.
Proof.
  induction ks as [|k ks IH]; simpl; [reflexivity|].
  destruct (Dict.contains k req_dict); [reflexivity | exact IH].
Qed.

Lemma update_disjoint (extra : dict) : forall base : dict,
  Dict.wf extra ->
  (forall k, In k (Dict.keys extra) -> ~ In k (Dict.keys base)) ->
  Dict.update base extra = base ++ extra.
Proof.
  unfold Dict.update, Dict.wf.
  induction extra as [|[k v] extra IH]; intros base W D; simpl.
  - now rewrite app_nil_r.
  - inversion W as [|? ? Nk W']; subst.
    rewrite set_absent by (apply get_none_not_key, D; now left).
    rewrite IH; [now rewrite <- app_assoc | assumption |].
    intros k' I. unfold Dict.keys. rewrite map_app, in_app_iff. simpl.
    intros [B|[E|[]]].
    + apply (D k'); [now right | exact B].
    + subst k'. now apply Nk.
Qed.

(** A key outside [extra] keeps its value through [update]. *)
Lemma get_update_other (k : string) (extra : dict) : forall base : dict,
  ~ In k (Dict.keys extra) ->
  Dict.get k (Dict.update base extra) = Dict.get k base.
Proof.
  unfold Dict.update.
  induction extra as [|[k0 v0] extra IH]; intros base N; simpl; [reflexivity|].
  rewrite IH by (intros I; apply N; now right).
  apply get_set_neq. intros ->. apply N. now left.
Qed.

Lemma merge_extra_fields_outcome (extra base : dict) :
  merge_extra_fields (Some extra) base =
  if existsb (fun k => Dict.contains k base) (Dict.keys extra)
  then Raise ExtraFieldsConflict else Ok (Dict.update base extra).
Proof.
  unfold merge_extra_fields, _check_extra_fields_keys.
  rewrite check_extra_keys_loop_spec.
  now destruct (existsb _ _).
Qed.

(** C5: merging extra fields fails, with the [ExtraFieldsError] client
    exception, exactly when a key of the extra mapping is already a key of
    the base mapping; otherwise it yields the union: the base entries
    followed by the extra entries. *)
Theorem merge_extra_fields_union (base extra : dict) :
  Dict.wf extra ->
  (merge_extra_fields (Some extra) base = Raise ExtraFieldsConflict <->
   exists k, In k (Dict.keys extra) /\ In k (Dict.keys base)) /\
  ((~ exists k, In k (Dict.keys extra) /\ In k (Dict.keys base)) ->
   merge_extra_fields (Some extra) base = Ok (base ++ extra)).
Proof.
  intros W. rewrite merge_extra_fields_outcome.
  destruct (existsb _ _) eqn:E.
  - apply existsb_exists in E. destruct E as [k [I C]].
    apply contains_key in C.
    split; [split; [intros _; now exists k | reflexivity]|].
    intros N. exfalso. apply N. now exists k.
  - split.
    + split; [discriminate|]. intros [k [I B]].
      assert (T : existsb (fun k => Dict.contains k base) (Dict.keys extra) = true).
      { apply existsb_exists. exists k. split; [assumption | now apply contains_key]. }
      congruence.
    + intros N. f_equal. apply update_disjoint; [assumption|].
      intros k I B. apply N. now exists k.
Qed.

Lemma merge_extra_fields_union_witness :
  merge_extra_fields (Some [("b", PInt 2)]) [("a", PInt 1)] =
  Ok [("a", PInt 1); ("b", PInt 2)].
Proof.
  refine (proj2 (merge_extra_fields_union [("a", PInt 1)] [("b", PInt 2)] _) _).
  - repeat constructor. simpl. tauto.
  - intros [k [[<-|[]] [E|[]]]]. discriminate.
Defined.

Example merge_extra_fields_conflict :
  merge_extra_fields (Some [("a", PInt 2)]) [("a", PInt 1)] =
  Raise ExtraFieldsConflict.
Proof. reflexivity. Qed.

(** ** Callback verification *)

Lemma py_eq_str (v : pyval) (s : string) : py_eq v (PStr s) = true <-> v = PStr s.
Proof.
  split.
  - destruct v; simpl; try discriminate.
    intros E. apply String.eqb_eq in E. now subst.
  - intros ->. simpl. apply String.eqb_refl.
Qed.

Lemma getitem_after_sign (k : string) (own : pyval) (d : dict) :
  k <> "sign" ->
  getitem k (Dict.set "sign" own (Dict.remove "sign" d)) = getitem k d.
Proof.
  intros N. unfold getitem.
  now rewrite get_set_neq, get_remove_neq.
Qed.

Lemma check_callback_signed (self : PiastrixClient) (notification : dict)
  (sign own ip shop_amount shop_currency : pyval) :
  Dict.get "sign" notification = Some sign ->
  py_in ip allowed_ip_address = true ->
  recomputed_sign self notification = Ok own ->
  check_callback self notification ip shop_amount shop_currency =
    (Dict.remove "sign" notification ++ [("sign", own)],
     callback_checks notification sign own shop_amount shop_currency).
Proof.
  intros S I R. unfold check_callback, pop. rewrite S, I. simpl.
  unfold recomputed_sign in R. rewrite (sign_digest_ok _ _ _ _ R).
  rewrite <- (set_absent "sign" own) by apply get_remove_eq.
  f_equal. unfold callback_checks.
  unfold getitem at 1. rewrite get_set_eq. simpl.
  rewrite !getitem_after_sign by discriminate.
  reflexivity.
Qed.

Lemma check_callback_untrusted (self : PiastrixClient) (notification : dict)
  (sign ip shop_amount shop_currency : pyval) :
  Dict.get "sign" notification = Some sign ->
  py_in ip allowed_ip_address = false ->
  check_callback self notification ip shop_amount shop_currency =
    (Dict.remove "sign" notification,
     client_error "IP address is not in allowed IP addresses"
                  PiastrixErrorCode.IpError).
Proof.
  intros S I. unfold check_callback, pop. now rewrite S, I.
Qed.

Lemma check_callback_unsigned (self : PiastrixClient) (notification : dict)
  (sign ip shop_amount shop_currency : pyval) (e : exn) :
  Dict.get "sign" notification = Some sign ->
  py_in ip allowed_ip_address = true ->
  recomputed_sign self notification = Raise e ->
  check_callback self notification ip shop_amount shop_currency =
    (Dict.remove "sign" notification, Raise e).
Proof.
  intros S I R. unfold check_callback, pop. rewrite S, I. simpl.
  unfold recomputed_sign in R. now rewrite (sign_digest_raise _ _ _ _ R).
Qed.

(** The outcomes on a notification the code can sign.  For a notification
    with a ['sign'] entry whose signature can be recomputed and which has
    its [shop_amount], [shop_currency] and [status] entries,
    [check_callback] returns normally when the source address is
    allow-listed, the supplied signature equals the recomputed one, the
    expected amount and currency equal the notification's and the status
    is ['success']; and when exactly one of the five conditions fails, the
    others holding, the outcome is precisely the failure of that
    condition: [IpError], [SignError], [ShopAmountError],
    [ShopCurrencyError], [StatusError]. *)
Theorem check_callback_outcomes (self : PiastrixClient) (notification : dict)
  (sign own amount currency status : pyval)
  (remote_ip_address shop_amount shop_currency : pyval) :
  Dict.get "sign" notification = Some sign ->
  recomputed_sign self notification = Ok own ->
  Dict.get "shop_amount" notification = Some amount ->
  Dict.get "shop_currency" notification = Some currency ->
  Dict.get "status" notification = Some status ->
  let outcome :=
    snd (check_callback self notification remote_ip_address shop_amount
                        shop_currency) in
  let ip_ok := py_in remote_ip_address allowed_ip_address in
  let sign_ok := py_eq sign own in
  let amount_ok := py_eq shop_amount amount in
  let currency_ok := py_eq shop_currency currency in
  let status_ok := py_eq status (PStr "success") in
  (ip_ok = true -> sign_ok = true -> amount_ok = true ->
   currency_ok = true -> status_ok = true -> outcome = Ok tt) /\
  (ip_ok = false -> sign_ok = true -> amount_ok = true ->
   currency_ok = true -> status_ok = true ->
   outcome = client_error "IP address is not in allowed IP addresses"
                          PiastrixErrorCode.IpError) /\
  (ip_ok = true -> sign_ok = false -> amount_ok = true ->
   currency_ok = true -> status_ok = true ->
   outcome = client_error "Wrong sign" PiastrixErrorCode.SignError) /\
  (ip_ok = true -> sign_ok = true -> amount_ok = false ->
   currency_ok = true -> status_ok = true ->
   outcome = client_error "Wrong shop_amount"
                          PiastrixErrorCode.ShopAmountError) /\
  (ip_ok = true -> sign_ok = true -> amount_ok = true ->
   currency_ok = false -> status_ok = true ->
   outcome = client_error "Wrong shop_currency"
                          PiastrixErrorCode.ShopCurrencyError) /\
  (ip_ok = true -> sign_ok = true -> amount_ok = true ->
   currency_ok = true -> status_ok = false ->
   outcome = client_error "Wrong status" PiastrixErrorCode.StatusError).
Proof.
  intros S R A C T. cbv zeta.
  assert (G : py_in remote_ip_address allowed_ip_address = true ->
              snd (check_callback self notification remote_ip_address
                                  shop_amount shop_currency) =
              callback_checks notification sign own shop_amount shop_currency).
  { intros I. now rewrite (check_callback_signed _ _ _ _ _ _ _ S I R). }
  repeat split; intros I Hs Ha Hc Ht;
    try (rewrite (G I); unfold callback_checks, py_ne, getitem;
         rewrite ?A, ?C, ?T; simpl;
         rewrite ?Hs, ?Ha, ?Hc, ?Ht; simpl;
         rewrite ?A, ?C, ?T; simpl;
         rewrite ?Hs, ?Ha, ?Hc, ?Ht; simpl;
         rewrite ?A, ?C, ?T; simpl;
         rewrite ?Hs, ?Ha, ?Hc, ?Ht; simpl; reflexivity).
  now rewrite (check_callback_untrusted _ _ _ _ _ _ S I).
Qed.

Lemma check_callback_outcomes_witness :
  snd (check_callback demo_client demo_notification
                      (PStr "37.48.108.181") (PStr "1.00") (PStr "643")) =
  Ok tt.
Proof.
  refine (proj1 (check_callback_outcomes demo_client demo_notification
    (PStr "d670e6c490574355fc4929e9d8480f2e7a9a8f1842a690e1d77f7505fe8b9e7f")
    (PStr "d670e6c490574355fc4929e9d8480f2e7a9a8f1842a690e1d77f7505fe8b9e7f")
    (PStr "1.00") (PStr "643") (PStr "success")
    (PStr "37.48.108.181") (PStr "1.00") (PStr "643") _ _ _ _ _) _ _ _ _ _);
    vm_compute; reflexivity.
Defined.

(** C2, at an input where the code departs from it: the notification
    [numeric_notification] comes from an allow-listed address, carries the
    signature the specified formula gives for its fields, has the expected
    amount and currency and the status ['success'], so every condition of a
    successful verification holds; yet [check_callback] raises [TypeError],
    out of the [str.join] of [_sign], its amount and currency being numbers
    and not strings. *)
Theorem check_callback_rejects_numeric_notification :
  py_in (PStr "87.98.145.206") allowed_ip_address = true /\
  option_map PStr
    (spec_signature (secret_key demo_client)
       (Dict.remove "sign" numeric_notification)
       (non_empty_fields (Dict.remove "sign" numeric_notification))) =
    Dict.get "sign" numeric_notification /\
  (exists amount,
     Dict.get "shop_amount" numeric_notification = Some amount /\
     py_eq (PFloat 10%float) amount = true) /\
  (exists currency,
     Dict.get "shop_currency" numeric_notification = Some currency /\
     py_eq (PInt 643) currency = true) /\
  Dict.get "status" numeric_notification = Some (PStr "success") /\
  check_callback demo_client numeric_notification
                 (PStr "87.98.145.206") (PFloat 10%float) (PInt 643) =
    (Dict.remove "sign" numeric_notification, Raise TypeError).
Proof.
  split; [reflexivity|]. split; [vm_compute; reflexivity|].
  split; [eexists; split; [reflexivity | vm_compute; reflexivity]|].
  split; [eexists; split; reflexivity|].
  split; [reflexivity | vm_compute; reflexivity].
Qed.

(** What [check_callback] does to the caller's mapping.  The ['sign']
    entry of the notification is removed before the source address is
    looked at, so a call that fails with the untrusted-source error leaves
    the mapping without its ['sign'] entry; and once the signature has been
    recomputed the mapping holds the recomputed digest under ['sign'], as
    its last entry, whatever the outcome of the later checks, every other
    entry being as it was. *)
Theorem check_callback_mutates (self : PiastrixClient) (notification : dict)
  (sign remote_ip_address shop_amount shop_currency : pyval) :
  Dict.get "sign" notification = Some sign ->
  let after :=
    fst (check_callback self notification remote_ip_address shop_amount
                        shop_currency) in
  let outcome :=
    snd (check_callback self notification remote_ip_address shop_amount
                        shop_currency) in
  (py_in remote_ip_address allowed_ip_address = false ->
   outcome = client_error "IP address is not in allowed IP addresses"
                          PiastrixErrorCode.IpError /\
   after = Dict.remove "sign" notification /\
   Dict.get "sign" after = None) /\
  (py_in remote_ip_address allowed_ip_address = true ->
   forall own, recomputed_sign self notification = Ok own ->
     after = Dict.remove "sign" notification ++ [("sign", own)] /\
     Dict.get "sign" after = Some own /\
     forall k, k <> "sign" -> Dict.get k after = Dict.get k notification).
Proof.
  intros S. cbv zeta. split.
  - intros I. rewrite (check_callback_untrusted _ _ _ _ _ _ S I). simpl.
    repeat split. apply get_remove_eq.
  - intros I own R. rewrite (check_callback_signed _ _ _ _ _ _ _ S I R). simpl.
    split; [reflexivity|].
    rewrite <- (set_absent "sign" own) by apply get_remove_eq.
    split; [apply get_set_eq|].
    intros k N. now rewrite get_set_neq, get_remove_neq.
Qed.

Lemma check_callback_mutates_witness :
  fst (check_callback demo_client demo_notification
                      (PStr "10.0.0.1") (PStr "1.00") (PStr "643")) =
  Dict.remove "sign" demo_notification.
Proof.
  refine (proj1 (proj2 (proj1 (check_callback_mutates demo_client
    demo_notification
    (PStr "d670e6c490574355fc4929e9d8480f2e7a9a8f1842a690e1d77f7505fe8b9e7f")
    (PStr "10.0.0.1") (PStr "1.00") (PStr "643") _) _)));
    vm_compute; reflexivity.
Defined.

(** On a notification whose non-empty entries are all strings the
    recomputation goes through: the mapping ends with the digest of the
    specified formula under ['sign'], as its last entry. *)
Lemma check_callback_writes_digest (self : PiastrixClient)
  (notification : dict)
  (sign remote_ip_address shop_amount shop_currency : pyval) :
  Dict.get "sign" notification = Some sign ->
  py_in remote_ip_address allowed_ip_address = true ->
  (forall k v, Dict.get k (Dict.remove "sign" notification) = Some v ->
               py_in v [PStr ""; PNone] = false -> exists s, v = PStr s) ->
  exists digest,
    spec_signature (secret_key self) (Dict.remove "sign" notification)
      (non_empty_fields (Dict.remove "sign" notification)) = Some digest /\
    fst (check_callback self notification remote_ip_address shop_amount
                        shop_currency) =
    Dict.remove "sign" notification ++ [("sign", PStr digest)].
Proof.
  intros S I H.
  destruct (sign_digest_spec_on_strings self (Dict.remove "sign" notification)
              (non_empty_fields (Dict.remove "sign" notification)))
    as [h [Sp D]].
  { intros k J. unfold non_empty_fields in J. apply filter_In in J.
    destruct J as [_ J].
    destruct (Dict.get k (Dict.remove "sign" notification)) as [v|] eqn:G;
      [|discriminate].
    destruct (H k v G) as [s ->]; [now destruct (py_in v _) | now exists s]. }
  exists h. split; [exact Sp|].
  now rewrite (check_callback_signed _ _ _ (PStr h) _ _ _ S I D).
Qed.

(** C10, at an input where the code departs from it: on a notification
    with numeric amount and currency the call reaches the recomputation of
    the signature, which the specified formula does define, but [_sign]
    raises [TypeError] before it writes anything: the caller's mapping ends
    without any ['sign'] entry, holding neither the digest that was sent nor
    a recomputed one. *)
Theorem check_callback_loses_sign_on_numeric_value :
  py_in (PStr "87.98.145.206") allowed_ip_address = true /\
  (exists digest,
     spec_signature (secret_key demo_client)
       (Dict.remove "sign" numeric_notification)
       (non_empty_fields (Dict.remove "sign" numeric_notification)) =
     Some digest) /\
  snd (check_callback demo_client
         (Dict.set "sign" (PStr "00") numeric_notification)
         (PStr "87.98.145.206") (PFloat 10%float) (PInt 643)) =
    Raise TypeError /\
  fst (check_callback demo_client
         (Dict.set "sign" (PStr "00") numeric_notification)
         (PStr "87.98.145.206") (PFloat 10%float) (PInt 643)) =
    Dict.remove "sign" numeric_notification /\
  Dict.get "sign"
    (fst (check_callback demo_client
            (Dict.set "sign" (PStr "00") numeric_notification)
            (PStr "87.98.145.206") (PFloat 10%float) (PInt 643))) = None.
Proof.
  split; [reflexivity|]. split; [eexists; vm_compute; reflexivity|].
  repeat split; vm_compute; reflexivity.
Qed.

(** ** The callback checks on concrete notifications *)

Example callback_untrusted_source :
  check_callback demo_client demo_notification
                 (PStr "10.0.0.1") (PStr "1.00") (PStr "643") =
  (Dict.remove "sign" demo_notification,
   client_error "IP address is not in allowed IP addresses"
                PiastrixErrorCode.IpError).
Proof. vm_compute. reflexivity. Qed.

Example callback_wrong_sign :
  check_callback demo_client
    (Dict.set "sign" (PStr "00") demo_notification)
    (PStr "37.48.108.181") (PStr "1.00") (PStr "643") =
  (demo_notification, client_error "Wrong sign" PiastrixErrorCode.SignError).
Proof. vm_compute. reflexivity. Qed.

Example callback_wrong_amount :
  snd (check_callback demo_client demo_notification
                      (PStr "37.48.108.181") (PStr "2.00") (PStr "643")) =
  client_error "Wrong shop_amount" PiastrixErrorCode.ShopAmountError.
Proof. vm_compute. reflexivity. Qed.

Example callback_wrong_currency :
  snd (check_callback demo_client demo_notification
                      (PStr "37.48.108.181") (PStr "1.00") (PStr "840")) =
  client_error "Wrong shop_currency" PiastrixErrorCode.ShopCurrencyError.
Proof. vm_compute. reflexivity. Qed.

Example callback_wrong_status :
  snd (check_callback demo_client
         [ ("shop_amount", PStr "1.00"); ("shop_currency", PStr "643");
           ("status", PStr "rejected");
           ("sign",
            PStr "377ca8a7eab83ad317bd925e2316667bc573c345adcd9e9f65ceef81e04c9640") ]
         (PStr "37.48.108.181") (PStr "1.00") (PStr "643")) =
  client_error "Wrong status" PiastrixErrorCode.StatusError.
Proof. vm_compute. reflexivity. Qed.

(** A notification whose amount is a JSON number cannot be verified: the
    recomputation raises out of [str.join], and the mapping is left without
    its ['sign'] entry. *)
Example callback_numeric_amount :
  check_callback demo_client
    [("shop_amount", PFloat 1%float); ("status", PStr "success");
     ("sign", PStr "00")]
    (PStr "37.48.108.181") (PFloat 1%float) (PStr "643") =
  ([("shop_amount", PFloat 1%float); ("status", PStr "success")],
   Raise TypeError).
Proof. vm_compute. reflexivity. Qed.

(** ** Operations *)

Lemma contains_existsb {V} (k : string) (d : list (string * V)) :
  Dict.contains k d = existsb (String.eqb k) (Dict.keys d).
Proof.
  unfold Dict.contains.
  induction d as [|[k0 v0] d IH]; simpl; [reflexivity|].
  destruct (String.eqb k k0); [reflexivity | exact IH].
Qed.

Lemma merge_collides (extra_fields : option dict) (req_dict : dict) :
  merge_extra_fields extra_fields req_dict =
  if collides extra_fields (Dict.keys req_dict)
  then Raise ExtraFieldsConflict
  else Ok match extra_fields with
          | Some extra => Dict.update req_dict extra
          | None => req_dict
          end.
Proof.
  destruct extra_fields as [extra|]; [|reflexivity].
  rewrite merge_extra_fields_outcome. unfold collides.
  replace (existsb (fun k => Dict.contains k req_dict) (Dict.keys extra))
    with (existsb (fun k => existsb (String.eqb k) (Dict.keys req_dict))
                  (Dict.keys extra)); [reflexivity|].
  induction (Dict.keys extra) as [|k ks IH]; simpl; [reflexivity|].
  now rewrite IH, contains_existsb.
Qed.

Lemma collides_false_other (extra : dict) (names : list string) (k : string) :
  collides (Some extra) names = false -> In k names -> ~ In k (Dict.keys extra).
Proof.
  unfold collides. intros C I J.
  assert (T : existsb (fun k => existsb (String.eqb k) names) (Dict.keys extra) = true).
  { apply existsb_exists. exists k. split; [assumption|].
    apply existsb_exists. exists k. split; [assumption | apply String.eqb_refl]. }
  congruence.
Qed.

(** C6, as the code has it: with an [amount_type] outside the accepted
    pair no request is sent.  [withdraw_try] fails with [AmountTypeError];
    [transfer] and [withdraw] merge the extra fields first, so they fail
    with [ExtraFieldsError] when an extra key collides with a field of the
    request and with [AmountTypeError] otherwise. *)
Theorem invalid_amount_type_sends_nothing
  (urljoin : string -> string -> string)
  (requests_post : string -> dict -> pyval -> http_outcome)
  (self : PiastrixClient) (amount_type : pyval) (w : world) :
  (py_in amount_type [PStr "receive_amount"; PStr "writeoff_amount"] = false ->
   forall amount payee_account payee_currency shop_currency shop_payment_id
          extra_fields,
     transfer urljoin requests_post self amount amount_type payee_account
              payee_currency shop_currency shop_payment_id extra_fields w =
     (w, Raise (if collides extra_fields
                     ["amount"; "amount_type"; "payee_account";
                      "payee_currency"; "shop_currency"; "shop_id";
                      "shop_payment_id"]
                then ExtraFieldsConflict else InvalidAmountType))) /\
  (py_in amount_type [PStr "ps_amount"; PStr "shop_amount"] = false ->
   (forall amount payway shop_currency,
      withdraw_try urljoin requests_post self amount amount_type payway
                   shop_currency w =
      (w, Raise InvalidAmountType)) /\
   (forall account amount payway shop_currency shop_payment_id account_details
           extra_fields,
      withdraw urljoin requests_post self account amount amount_type payway
               shop_currency shop_payment_id account_details extra_fields w =
      (w, Raise (if collides extra_fields
                      (["account"; "amount"; "amount_type"; "payway";
                        "shop_currency"; "shop_id"; "shop_payment_id"] ++
                       match account_details with
                       | Some _ => ["account_details"]
                       | None => []
                       end)
                 then ExtraFieldsConflict else InvalidAmountType)))).
Proof.
  split; [intros T | intros T; split].
  - intros. unfold transfer, io_bind, io_lift.
    rewrite merge_collides. cbn [Dict.keys map fst].
    destruct (collides _ _); [reflexivity|].
    unfold PiastrixTransferAmountType.ReceiveAmountType,
      PiastrixTransferAmountType.WriteoffAmountType.
    rewrite T. reflexivity.
  - intros. unfold withdraw_try, io_lift.
    unfold PiastrixWithdrawAmountType.PsAmountType,
      PiastrixWithdrawAmountType.ShopAmountType.
    rewrite T. reflexivity.
  - intros. unfold withdraw, io_bind, io_lift.
    rewrite merge_collides.
    destruct account_details as [details|]; cbn [Dict.set String.eqb Ascii.eqb
      Bool.eqb Dict.keys map fst app];
      (destruct (collides _ _); [reflexivity|]);
      unfold PiastrixWithdrawAmountType.PsAmountType,
        PiastrixWithdrawAmountType.ShopAmountType;
      rewrite T; reflexivity.
Qed.

Lemma invalid_amount_type_sends_nothing_witness :
  transfer demo_urljoin (demo_post Failed) demo_client
           (PStr "10") (PStr "bogus") (PStr "acc") (PStr "643") (PStr "643")
           (PStr "p-1") None [] =
  ([], Raise InvalidAmountType).
Proof.
  refine (proj1 (invalid_amount_type_sends_nothing demo_urljoin
                   (demo_post Failed) demo_client (PStr "bogus") []) _
                (PStr "10") (PStr "acc") (PStr "643") (PStr "643")
                (PStr "p-1") None).
  reflexivity.
Defined.

(** C6 as stated fails on [transfer]: with [amount_type = "bogus"] and an
    extra field named ["amount"], the call fails with [ExtraFieldsError],
    not with [AmountTypeError]. *)
Lemma transfer_bogus_with_colliding_extra :
  transfer demo_urljoin (demo_post Failed) demo_client
           (PStr "10") (PStr "bogus") (PStr "acc") (PStr "643") (PStr "643")
           (PStr "p-1") (Some [("amount", PStr "20")]) [] =
    ([], Raise ExtraFieldsConflict) /\
  snd (transfer demo_urljoin (demo_post Failed) demo_client
           (PStr "10") (PStr "bogus") (PStr "acc") (PStr "643") (PStr "643")
           (PStr "p-1") (Some [("amount", PStr "20")]) []) <>
    Raise InvalidAmountType.
Proof. split; [reflexivity | vm_compute; discriminate]. Qed.

Lemma is_True_iff (v : pyval) : is_True v = true <-> v = PBool true.
Proof.
  destruct v as [| [|] | | | | |]; simpl; split; congruence.
Qed.

Lemma raise_for_status_2xx (status_code : Z) :
  200 <= status_code < 300 -> raise_for_status status_code = Ok tt.
Proof.
  intros H. unfold raise_for_status.
  replace (400 <=? status_code) with false by (symmetry; apply Z.leb_gt; lia).
  reflexivity.
Qed.

(** C7, as the code has it: [_post] issues one POST and, on a 2xx response
    whose body is a JSON object, returns the ['data'] entry ([None] when
    there is none) if the ['result'] entry is the boolean [True]; raises the
    client exception built from the ['message'] and ['error_code'] entries
    if ['result'] is present and anything else and both entries are there;
    and raises the [KeyError] of the missing entry when ['result'], or on
    the failure path ['message'] or ['error_code'], is absent. *)
Theorem post_interprets_response
  (urljoin : string -> string -> string)
  (requests_post : string -> dict -> pyval -> http_outcome)
  (self : PiastrixClient) (endpoint : string) (req_dict : dict) (w : world)
  (status_code : Z) (body : dict) :
  200 <= status_code < 300 ->
  requests_post (urljoin (piastrix_url self) endpoint) req_dict (timeout self) =
    Response status_code (Some (PDict body)) ->
  let outcome := snd (_post urljoin requests_post self endpoint req_dict w) in
  fst (_post urljoin requests_post self endpoint req_dict w) =
    w ++ [(urljoin (piastrix_url self) endpoint, req_dict, timeout self)] /\
  (Dict.get "result" body = Some (PBool true) ->
   outcome = Ok match Dict.get "data" body with
                | Some data => data
                | None => PNone
                end) /\
  (forall flag, Dict.get "result" body = Some flag -> flag <> PBool true ->
     match Dict.get "message" body, Dict.get "error_code" body with
     | Some message, Some error_code =>
         outcome = Raise (PiastrixClientException message error_code)
     | Some _, None => outcome = Raise (KeyError "error_code")
     | None, _ => outcome = Raise (KeyError "message")
     end) /\
  (Dict.get "result" body = None -> outcome = Raise (KeyError "result")).
Proof.
  intros S R. cbv zeta. unfold _post. simpl. rewrite R.
  unfold interpret. rewrite (raise_for_status_2xx _ S). simpl.
  unfold getitem.
  split; [reflexivity|]. split; [|split].
  - intros F. rewrite F. reflexivity.
  - intros flag F N. rewrite F. simpl.
    destruct (is_True flag) eqn:T; [apply is_True_iff in T; contradiction|].
    destruct (Dict.get "message" body); simpl; [|reflexivity].
    destruct (Dict.get "error_code" body); reflexivity.
  - intros F. rewrite F. reflexivity.
Qed.

Lemma post_interprets_response_witness :
  snd (_post demo_urljoin
         (demo_post (Response 200
            (Some (PDict [("result", PBool true);
                          ("data", PDict [("id", PStr "x")])]))))
         demo_client "bill/create" [("shop_id", PStr "5")] []) =
  Ok (PDict [("id", PStr "x")]).
Proof.
  refine (proj1 (proj2 (post_interprets_response demo_urljoin
    (demo_post (Response 200
       (Some (PDict [("result", PBool true);
                     ("data", PDict [("id", PStr "x")])]))))
    demo_client "bill/create" [("shop_id", PStr "5")] [] 200
    [("result", PBool true); ("data", PDict [("id", PStr "x")])] _ _)) _).
  - lia.
  - reflexivity.
  - reflexivity.
Defined.

Example post_remote_error :
  snd (_post demo_urljoin
         (demo_post (Response 200
            (Some (PDict [("result", PBool false); ("message", PStr "bad");
                          ("error_code", PInt 5)]))))
         demo_client "bill/create" [] []) =
  Raise (PiastrixClientException (PStr "bad") (PInt 5)).
Proof. reflexivity. Qed.

(** C7 as stated fails on a 2xx response that has no ['result'] entry:
    its ['result'] is not the boolean [True], and it carries ['message'] and
    ['error_code'], yet [_post] raises [KeyError('result')] and not the
    client exception built from them. *)
Lemma post_without_result_field :
  snd (_post demo_urljoin
         (demo_post (Response 200
            (Some (PDict [("message", PStr "bad"); ("error_code", PInt 5)]))))
         demo_client "bill/create" [] []) = Raise (KeyError "result") /\
  snd (_post demo_urljoin
         (demo_post (Response 200
            (Some (PDict [("message", PStr "bad"); ("error_code", PInt 5)]))))
         demo_client "bill/create" [] []) <>
    Raise (PiastrixClientException (PStr "bad") (PInt 5)).
Proof. split; [reflexivity | vm_compute; discriminate]. Qed.

Lemma collides_same_names (extra_fields : option dict) (names names' : list string) :
  (forall n, In n names <-> In n names') ->
  collides extra_fields names = collides extra_fields names'.
Proof.
  intros H. destruct extra_fields as [extra|]; [|reflexivity]. unfold collides.
  induction (Dict.keys extra) as [|k ks IH]; simpl; [reflexivity|].
  rewrite IH. f_equal.
  destruct (existsb (String.eqb k) names') eqn:E.
  - apply existsb_exists in E. destruct E as [n [I E]].
    apply existsb_exists. exists n. split; [now apply H | assumption].
  - destruct (existsb (String.eqb k) names) eqn:E'; [|reflexivity].
    apply existsb_exists in E'. destruct E' as [n [I E']].
    assert (T : existsb (String.eqb k) names' = true).
    { apply existsb_exists. exists n. split; [now apply H | assumption]. }
    congruence.
Qed.

Lemma pay_names_sorted :
  sorted ["amount"; "currency"; "shop_id"; "shop_order_id"] =
  ["amount"; "currency"; "shop_id"; "shop_order_id"].
Proof. vm_compute. reflexivity. Qed.

(** C8, as the code has it: [pay] never sends a request.  A [lang] other
    than ['ru'] and ['en'] fails with [LanguageError].  For ['ru'] or ['en']
    an extra key colliding with a form field fails with [ExtraFieldsError];
    otherwise, the four required values being strings, the call returns
    the form (the fixed fields, then the extra ones) with its ['sign'] entry
    holding the digest of [amount:currency:shop_id:shop_order_id] followed
    by the secret, together with [https://pay.piastrix.com/<lang>/pay]. *)
Theorem pay_builds_redirect (self : PiastrixClient)
  (amount currency shop_order_id : pyval) (extra_fields : option dict)
  (lang : string) (w : world) :
  let names := ["amount"; "currency"; "shop_id"; "shop_order_id"] in
  let form :=
    [ ("amount", amount); ("shop_id", shop_id self); ("currency", currency);
      ("shop_order_id", shop_order_id) ] in
  let res := pay self amount currency shop_order_id extra_fields lang w in
  fst res = w /\
  (lang <> "ru" -> lang <> "en" ->
   snd res = Raise (PiastrixClientException
                      (PStr (lang ++ " is not valid language")%string)
                      (PInt PiastrixErrorCode.LanguageError))) /\
  (lang = "ru" \/ lang = "en" ->
   (collides extra_fields names = true -> snd res = Raise ExtraFieldsConflict) /\
   (collides extra_fields names = false ->
    forall a c s o,
      amount = PStr a -> currency = PStr c -> shop_id self = PStr s ->
      shop_order_id = PStr o ->
      let merged := match extra_fields with
                    | Some extra => Dict.update form extra
                    | None => form
                    end in
      let digest :=
        SHA256.hexdigest
          ((a ++ ":" ++ c ++ ":" ++ s ++ ":" ++ o) ++ secret_key self)%string in
      spec_signature (secret_key self) merged names = Some digest /\
      snd res = Ok (Dict.set "sign" (PStr digest) merged,
                    ("https://pay.piastrix.com/" ++ lang ++ "/pay")%string))).
Proof.
  cbv zeta. unfold pay.
  assert (L : py_in (PStr lang) [PStr "ru"; PStr "en"] =
              (String.eqb "ru" lang || String.eqb "en" lang)).
  { simpl. now rewrite orb_false_r. }
  rewrite L.
  assert (M : forall k, In k ["amount"; "currency"; "shop_id"; "shop_order_id"] ->
      collides extra_fields ["amount"; "currency"; "shop_id"; "shop_order_id"] = false ->
      forall form : dict,
        Dict.get k match extra_fields with
                   | Some extra => Dict.update form extra
                   | None => form
                   end = Dict.get k form).
  { intros k I C form. destruct extra_fields as [extra|]; [|reflexivity].
    apply get_update_other. eapply collides_false_other; eassumption. }
  split; [|split].
  - destruct (String.eqb "ru" lang || String.eqb "en" lang); [|reflexivity].
    unfold io_bind, io_lift, io_ret. simpl.
    destruct (merge_extra_fields extra_fields _); [|reflexivity].
    destruct (_sign self a _); reflexivity.
  - intros Nr Ne.
    replace (String.eqb "ru" lang) with false
      by (symmetry; apply String.eqb_neq; congruence).
    replace (String.eqb "en" lang) with false
      by (symmetry; apply String.eqb_neq; congruence).
    reflexivity.
  - intros Hl.
    replace (String.eqb "ru" lang || String.eqb "en" lang) with true
      by (destruct Hl as [-> | ->]; reflexivity).
    cbn [negb]. unfold io_bind, io_lift, io_ret.
    rewrite merge_collides. cbn [Dict.keys map fst].
    rewrite (collides_same_names extra_fields
               ["amount"; "shop_id"; "currency"; "shop_order_id"]
               ["amount"; "currency"; "shop_id"; "shop_order_id"])
      by (intros n; simpl; tauto).
    split.
    + intros C. now rewrite C.
    + intros C a c s o -> -> Hs ->.
      rewrite C. rewrite Hs.
      unfold spec_signature, _sign, signed_data. rewrite pay_names_sorted.
      cbn [getitems spec_values]. unfold getitem.
      rewrite !M by (assumption || (simpl; tauto)).
      cbn -[SHA256.hexdigest Dict.set Dict.update String.append].
      split; reflexivity.
Qed.

Lemma pay_builds_redirect_witness :
  snd (pay demo_client (PStr "1") (PStr "643") (PStr "o1") None "en" []) =
  Ok (Dict.set "sign"
        (PStr (SHA256.hexdigest
                 (("1" ++ ":" ++ "643" ++ ":" ++ "5" ++ ":" ++ "o1") ++
                  secret_key demo_client)%string))
        [ ("amount", PStr "1"); ("shop_id", shop_id demo_client);
          ("currency", PStr "643"); ("shop_order_id", PStr "o1") ],
      "https://pay.piastrix.com/en/pay").
Proof.
  refine (proj2 (proj2 (proj2 (proj2 (pay_builds_redirect demo_client
            (PStr "1") (PStr "643") (PStr "o1") None "en" [])) _) _
          "1" "643" "5" "o1" _ _ _ _)); try reflexivity.
  right. reflexivity.
Defined.

(** C8 as stated fails for [lang = 'en'] when an extra field is named like
    a form field: the call raises [ExtraFieldsError] and returns no form. *)
Lemma pay_en_with_colliding_extra :
  pay demo_client (PStr "1") (PStr "643") (PStr "o1")
      (Some [("amount", PStr "2")]) "en" [] =
    ([], Raise ExtraFieldsConflict) /\
  forall form url,
    snd (pay demo_client (PStr "1") (PStr "643") (PStr "o1")
             (Some [("amount", PStr "2")]) "en" []) <> Ok (form, url).
Proof. split; [reflexivity | intros form url; vm_compute; discriminate]. Qed.

(** ** Sensitivity of the signature to a required field *)

Lemma string_app_nil_r (s : string) : (s ++ "")%string = s.
Proof. induction s as [|c s IH]; simpl; [reflexivity | now rewrite IH]. Qed.

Lemma str_join_cons (sep s : string) (items : list pyval) :
  items <> [] ->
  str_join sep (PStr s :: items) =
  (rest <- str_join sep items ;; Ok (s ++ sep ++ rest)%string).
Proof. destruct items; [congruence | reflexivity]. Qed.

(** Changing the value under [k] changes one item of what [getitems]
    reads, when [k] is among the names and the names are distinct. *)
Lemma getitems_change (data : dict) (k : string) (v v' : pyval) names :
  forall vs, NoDup names -> In k names ->
  getitems (Dict.set k v data) names = Ok vs ->
  exists pre post,
    vs = pre ++ v :: post /\
    getitems (Dict.set k v' data) names = Ok (pre ++ v' :: post).
Proof.
  induction names as [|x names IH]; intros vs N I G; [destruct I|].
  inversion N as [|? ? Nx N']; subst.
  simpl in G. unfold getitem in G.
  destruct (string_dec x k) as [->|D].
  - rewrite get_set_eq in G. simpl in G.
    destruct (getitems (Dict.set k v data) names) as [ys|] eqn:Y; [|discriminate].
    injection G as <-. exists [], ys. split; [reflexivity|].
    simpl. unfold getitem. rewrite get_set_eq. simpl.
    rewrite (getitems_ext _ (Dict.set k v data)), Y; [reflexivity|].
    intros n In_n. rewrite !get_set_neq; congruence.
  - rewrite get_set_neq in G by assumption.
    destruct (Dict.get x data) as [y|] eqn:X; [|discriminate]. simpl in G.
    destruct (getitems (Dict.set k v data) names) as [ys|] eqn:Y; [|discriminate].
    injection G as <-.
    destruct I as [E|I]; [congruence|].
    destruct (IH ys N' I eq_refl) as [pre [post [-> G']]].
    exists (y :: pre), post. split; [reflexivity|].
    simpl. unfold getitem. rewrite get_set_neq by assumption.
    rewrite X. simpl. now rewrite G'.
Qed.

(** The joined string is the changed value between two fixed strings. *)
Lemma str_join_middle (pre post : list pyval) (v j : string) :
  str_join ":" (pre ++ PStr v :: post) = Ok j ->
  exists A B,
    j = (A ++ v ++ B)%string /\
    forall v', str_join ":" (pre ++ PStr v' :: post) = Ok (A ++ v' ++ B)%string.
Proof.
  revert j. induction pre as [|p pre IH]; intros j J.
  - simpl app in *. destruct post as [|q post].
    + injection J as <-. exists "", "". split; [now rewrite string_app_nil_r|].
      intros v'. simpl. now rewrite string_app_nil_r.
    + rewrite str_join_cons in J by discriminate.
      destruct (str_join ":" (q :: post)) as [rest|] eqn:R; [|discriminate].
      injection J as <-. exists "", (":" ++ rest)%string. split; [reflexivity|].
      intros v'. rewrite str_join_cons by discriminate. now rewrite R.
  - assert (NE : pre ++ PStr v :: post <> []) by (destruct pre; discriminate).
    destruct p as [| | | | s | |];
      try (simpl in J; destruct (pre ++ PStr v :: post); discriminate).
    rewrite <- app_comm_cons, str_join_cons in J by assumption.
    destruct (str_join ":" (pre ++ PStr v :: post)) as [rest|] eqn:R; [|discriminate].
    injection J as <-.
    destruct (IH rest eq_refl) as [A [B [-> H]]].
    exists (s ++ ":" ++ A)%string, B. split.
    + now rewrite !string_app_assoc.
    + intros v'. rewrite <- app_comm_cons, str_join_cons
        by (destruct pre; discriminate).
      rewrite H. simpl. now rewrite !string_app_assoc.
Qed.

(** On string values the separator does its work: with distinct required
    names, changing the string value of one required field changes the string that
    is hashed, so the two signatures are the SHA-256 digests of two
    different strings; for the fields [{a:1, b:23}] and [{a:12, b:3}] the
    hashed strings differ under every secret, and under the secret of
    [demo_client] the two signatures differ. *)
Theorem single_field_change_changes_signed_data (self : PiastrixClient)
  (data : dict) (req : list string) (k v v' m : string) :
  NoDup req -> In k req -> v <> v' ->
  signed_data self (Dict.set k (PStr v) data) req = Ok m ->
  (exists m',
     signed_data self (Dict.set k (PStr v') data) req = Ok m' /\
     m <> m' /\
     sign_digest self (Dict.set k (PStr v) data) req =
       Ok (PStr (SHA256.hexdigest m)) /\
     sign_digest self (Dict.set k (PStr v') data) req =
       Ok (PStr (SHA256.hexdigest m'))) /\
  signed_data self [("a", PStr "1"); ("b", PStr "23")] ["a"; "b"] <>
  signed_data self [("a", PStr "12"); ("b", PStr "3")] ["a"; "b"] /\
  sign_digest demo_client [("a", PStr "1"); ("b", PStr "23")] ["a"; "b"] <>
  sign_digest demo_client [("a", PStr "12"); ("b", PStr "3")] ["a"; "b"].
Proof.
  intros N I D S. split; [|split].
  - unfold signed_data in S.
    destruct (getitems (Dict.set k (PStr v) data) (sorted req)) as [vs|] eqn:G;
      [|discriminate].
    simpl in S.
    destruct (str_join ":" vs) as [j|] eqn:J; [|discriminate].
    injection S as <-.
    destruct (getitems_change data k (PStr v) (PStr v') (sorted req) vs)
      as [pre [post [-> G']]]; try assumption.
    { eapply Permutation_NoDup; [symmetry; apply sorted_perm | assumption]. }
    { now apply sorted_in. }
    destruct (str_join_middle pre post v j J) as [A [B [-> H]]].
    exists ((A ++ v' ++ B) ++ secret_key self)%string.
    assert (S' : signed_data self (Dict.set k (PStr v') data) req =
                 Ok ((A ++ v' ++ B) ++ secret_key self)%string).
    { unfold signed_data. rewrite G'. simpl. now rewrite H. }
    assert (S0 : signed_data self (Dict.set k (PStr v) data) req =
                 Ok ((A ++ v ++ B) ++ secret_key self)%string).
    { unfold signed_data. rewrite G. simpl. now rewrite J. }
    split; [exact S'|]. split.
    + intros E. apply string_app_inv_tail, string_app_inv_head in E.
      apply string_app_inv_tail in E. contradiction.
    + rewrite !sign_digest_signed, S', S0. split; reflexivity.
  - unfold signed_data.
    change (sorted ["a"; "b"]) with ["a"; "b"].
    cbn -[String.append]. intros E. injection E as E. discriminate E.
  - vm_compute. discriminate.
Qed.

Lemma single_field_change_changes_signed_data_witness :
  exists m',
    signed_data demo_client
      (Dict.set "a" (PStr "12") [("a", PStr "0"); ("b", PStr "3")])
      ["a"; "b"] = Ok m' /\
    "1:3secret" <> m' /\
    sign_digest demo_client
      (Dict.set "a" (PStr "1") [("a", PStr "0"); ("b", PStr "3")])
      ["a"; "b"] = Ok (PStr (SHA256.hexdigest "1:3secret")) /\
    sign_digest demo_client
      (Dict.set "a" (PStr "12") [("a", PStr "0"); ("b", PStr "3")])
      ["a"; "b"] = Ok (PStr (SHA256.hexdigest m')).
Proof.
  refine (proj1 (single_field_change_changes_signed_data demo_client
            [("a", PStr "0"); ("b", PStr "3")] ["a"; "b"] "a" "1" "12"
            "1:3secret" _ _ _ _)).
  - repeat constructor; simpl; intuition discriminate.
  - simpl. tauto.
  - discriminate.
  - reflexivity.
Defined.


(** * Further properties of the client *)

(** ** The signature written by [_sign] *)

Lemma string_forall_app (p : ascii -> bool) (s t : string) :
  string_forall p (s ++ t) = string_forall p s && string_forall p t.
Proof.
  induction s as [|c s IH]; simpl; [reflexivity|].
  now rewrite IH, andb_assoc.
Qed.

Lemma hex_digit_lower (x : Z) : is_lower_hex (SHA256.hex_digit (x mod 16)) = true.
Proof.
  pose proof (Z.mod_pos_bound x 16 ltac:(lia)) as B.
  assert (E : x mod 16 = 0 \/ x mod 16 = 1 \/ x mod 16 = 2 \/ x mod 16 = 3 \/
              x mod 16 = 4 \/ x mod 16 = 5 \/ x mod 16 = 6 \/ x mod 16 = 7 \/
              x mod 16 = 8 \/ x mod 16 = 9 \/ x mod 16 = 10 \/ x mod 16 = 11 \/
              x mod 16 = 12 \/ x mod 16 = 13 \/ x mod 16 = 14 \/ x mod 16 = 15)
    by lia.
  repeat (destruct E as [E|E]; [rewrite E; reflexivity|]).
  rewrite E. reflexivity.
Qed.

Lemma hex_of_shape (n : nat) (x : Z) :
  String.length (SHA256.hex_of n x) = n /\
  string_forall is_lower_hex (SHA256.hex_of n x) = true.
Proof.
  induction n as [|n [L F]]; [split; reflexivity|].
  cbn [SHA256.hex_of String.length string_forall].
  rewrite L, F, hex_digit_lower. split; reflexivity.
Qed.

Lemma hexdigest_shape (s : string) : is_signature (PStr (SHA256.hexdigest s)).
Proof.
  exists (SHA256.hexdigest s). split; [reflexivity|].
  unfold SHA256.hexdigest, SHA256.hex_state.
  rewrite !string_length_app, !string_forall_app.
  repeat match goal with
         | |- context [SHA256.hex_of 8 ?x] =>
             let L := fresh in let F := fresh in
             destruct (hex_of_shape 8 x) as [L F]; rewrite L, F; clear L F
         end.
  split; reflexivity.
Qed.

Lemma sign_ok_signed (self : PiastrixClient) (data data' : dict) req :
  _sign self data req = Ok data' ->
  exists m, signed_data self data req = Ok m /\
            data' = Dict.set "sign" (PStr (SHA256.hexdigest m)) data.
Proof.
  unfold _sign. destruct (signed_data self data req) as [m|e]; simpl;
    [|discriminate].
  intros E. injection E as <-. now exists m.
Qed.

(** X1: whenever [_sign] returns, the ['sign'] entry of the mapping is a
    string of 64 lowercase hexadecimal digits. *)
Theorem sign_writes_hex_digest (self : PiastrixClient) (data data' : dict)
  (required_fields : list string) :
  _sign self data required_fields = Ok data' ->
  exists sign, Dict.get "sign" data' = Some sign /\ is_signature sign.
Proof.
  intros S. destruct (sign_ok_signed _ _ _ _ S) as [m [_ ->]].
  eexists. split; [apply get_set_eq | apply hexdigest_shape].
Qed.

Lemma sign_writes_hex_digest_witness :
  exists sign,
    Dict.get "sign"
      (Dict.set "sign"
         (PStr "257e8025ba1e3c6dce35416d6bf8e494cc6cfae7425c6a1e460e1c423cc71888")
         [("a", PStr "1"); ("b", PStr "23")]) = Some sign /\
    is_signature sign.
Proof.
  apply (sign_writes_hex_digest demo_client
           [("a", PStr "1"); ("b", PStr "23")] _ ["a"; "b"]).
  vm_compute. reflexivity.
Defined.

Lemma str_join_ok_strings (sep : string) (items : list pyval) (j : string) :
  str_join sep items = Ok j -> exists l, items = map PStr l.
Proof.
  revert j. induction items as [|v items IH]; intros j J.
  - now exists [].
  - destruct v as [| | | | s | |];
      try (simpl in J; destruct items; discriminate).
    destruct items as [|v' items].
    + now exists [s].
    + rewrite str_join_cons in J by discriminate.
      destruct (str_join sep (v' :: items)) as [rest|] eqn:R; [|discriminate].
      destruct (IH rest eq_refl) as [l E]. exists (s :: l). simpl. now rewrite E.
Qed.

Lemma getitems_ok_lookup (d : dict) (names : list string) :
  forall l, getitems d names = Ok (map PStr l) ->
  forall k, In k names -> exists s, Dict.get k d = Some (PStr s).
Proof.
  induction names as [|x names IH]; intros l G k I; [destruct I|].
  simpl in G. unfold getitem in G.
  destruct (Dict.get x d) as [v|] eqn:X; [|discriminate]. simpl in G.
  destruct (getitems d names) as [vs|] eqn:Y; [|discriminate].
  injection G as G. destruct l as [|s l]; [discriminate|].
  injection G as -> ->.
  destruct I as [<-|I]; [now exists s | now apply (IH l eq_refl)].
Qed.

(** X2: [_sign] returns only on a mapping in which every required field
    is present and holds a string. *)
Theorem sign_returns_only_on_strings (self : PiastrixClient)
  (data data' : dict) (required_fields : list string) :
  _sign self data required_fields = Ok data' ->
  forall k, In k required_fields ->
            exists s, Dict.get k data = Some (PStr s).
Proof.
  intros S. destruct (sign_ok_signed _ _ _ _ S) as [m [M _]].
  unfold signed_data in M.
  destruct (getitems data (sorted required_fields)) as [vs|] eqn:G;
    [|discriminate].
  simpl in M. destruct (str_join ":" vs) as [j|] eqn:J; [|discriminate].
  destruct (str_join_ok_strings _ _ _ J) as [l ->].
  intros k I. apply (getitems_ok_lookup _ _ _ G). now apply sorted_in.
Qed.

Lemma sign_returns_only_on_strings_witness :
  exists s, Dict.get "b" [("a", PStr "1"); ("b", PStr "23")] = Some (PStr s).
Proof.
  refine (sign_returns_only_on_strings demo_client
            [("a", PStr "1"); ("b", PStr "23")] _ ["a"; "b"] _ "b" _).
  - vm_compute. reflexivity.
  - simpl. tauto.
Defined.

Lemma getitems_first_missing (d : dict) (k : string) (names : list string) :
  ordered names -> In k names -> Dict.get k d = None ->
  (forall k', In k' names -> Dict.get k' d = None -> String.leb k k' = true) ->
  getitems d names = Raise (KeyError k).
Proof.
  unfold ordered. induction names as [|x names IH]; intros O I N L; [destruct I|].
  inversion O as [|? ? O' F]; subst. rewrite Forall_forall in F.
  simpl. unfold getitem.
  destruct (Dict.get x d) as [v|] eqn:X.
  - destruct I as [->|I]; [congruence|]. simpl.
    rewrite IH; try assumption; [reflexivity|].
    intros k' I' N'. apply L; [now right | assumption].
  - assert (E : x = k).
    { destruct I as [E|I]; [assumption|].
      apply String.leb_antisym; [now apply F | apply L; [now left | assumption]]. }
    now subst.
Qed.

(** X3: when required fields are missing from the mapping, [_sign] raises
    the [KeyError] of the missing name that comes first in sorted order,
    whatever the other values are, and writes nothing. *)
Theorem sign_missing_field (self : PiastrixClient) (data : dict)
  (required_fields : list string) (k : string) :
  In k required_fields -> Dict.get k data = None ->
  (forall k', In k' required_fields -> Dict.get k' data = None ->
              String.leb k k' = true) ->
  _sign self data required_fields = Raise (KeyError k).
Proof.
  intros I N L. unfold _sign, signed_data.
  rewrite (getitems_first_missing data k); try assumption; [reflexivity | | |].
  - apply sorted_ordered.
  - now apply sorted_in.
  - intros k' I'. apply L. now apply sorted_in.
Qed.

Lemma sign_missing_field_witness :
  _sign demo_client [("payway", PStr "card"); ("amount", PInt 5)]
        ["shop_id"; "amount"; "currency"; "payway"] =
  Raise (KeyError "currency").
Proof.
  apply (sign_missing_field demo_client
           [("payway", PStr "card"); ("amount", PInt 5)]
           ["shop_id"; "amount"; "currency"; "payway"] "currency").
  - simpl. tauto.
  - reflexivity.
  - intros k' [<-|[<-|[<-|[<-|[]]]]]; (reflexivity || discriminate).
Defined.

Lemma keys_set {V} (k : string) (v : V) (d : list (string * V)) :
  Dict.keys (Dict.set k v d) =
  if Dict.contains k d then Dict.keys d else Dict.keys d ++ [k].
Proof.
  unfold Dict.contains, Dict.keys.
  induction d as [|[k0 v0] d IH]; simpl; [reflexivity|].
  destruct (String.eqb k k0); simpl; [reflexivity|].
  rewrite IH. now destruct (Dict.get k d).
Qed.

Lemma set_set {V} (k : string) (v v' : V) (d : list (string * V)) :
  Dict.set k v (Dict.set k v' d) = Dict.set k v d.
Proof.
  induction d as [|[k0 v0] d IH]; simpl.
  - now rewrite String.eqb_refl.
  - destruct (String.eqb k k0) eqn:E; simpl; rewrite E; [reflexivity|].
    now rewrite IH.
Qed.

Lemma signed_data_ext (self : PiastrixClient) (d1 d2 : dict) req :
  (forall k, In k req -> Dict.get k d1 = Dict.get k d2) ->
  signed_data self d1 req = signed_data self d2 req.
Proof.
  intros A. unfold signed_data.
  rewrite (getitems_ext d1 d2 (sorted req)); [reflexivity|].
  intros k I. apply A. now apply sorted_in.
Qed.

(** X4: [_sign] touches the ['sign'] entry only.  Every other entry keeps
    its value and the entries keep their order; ['sign'] is overwritten in
    place when the mapping has one and is added last otherwise, so a
    mapping with distinct keys stays one. *)
Theorem sign_keeps_other_entries (self : PiastrixClient) (data data' : dict)
  (required_fields : list string) :
  _sign self data required_fields = Ok data' ->
  (forall k, k <> "sign" -> Dict.get k data' = Dict.get k data) /\
  Dict.keys data' =
    (if Dict.contains "sign" data then Dict.keys data
     else Dict.keys data ++ ["sign"]) /\
  (Dict.wf data -> Dict.wf data').
Proof.
  intros S. destruct (sign_ok_signed _ _ _ _ S) as [m [_ ->]].
  split; [intros k N; now apply get_set_neq|].
  split; [apply keys_set|].
  unfold Dict.wf. rewrite keys_set.
  destruct (Dict.contains "sign" data) eqn:C; [tauto|].
  intros W. apply NoDup_app; [assumption | repeat constructor; simpl; tauto |].
  intros k I [<-|[]].
  apply contains_key in I. congruence.
Qed.

Lemma sign_keeps_other_entries_witness :
  Dict.keys (Dict.set "sign" (PStr (SHA256.hexdigest "1:23secret"))
               [("b", PStr "23"); ("sign", PStr "old"); ("a", PStr "1")]) =
  ["b"; "sign"; "a"].
Proof.
  refine (proj1 (proj2 (sign_keeps_other_entries demo_client
            [("b", PStr "23"); ("sign", PStr "old"); ("a", PStr "1")] _
            ["a"; "b"] _))).
  reflexivity.
Defined.

(** X5: signing is idempotent as long as ['sign'] itself is not a required
    field: signing the signed mapping again gives the same mapping. *)
Theorem sign_idempotent (self : PiastrixClient) (data data' : dict)
  (required_fields : list string) :
  ~ In "sign" required_fields ->
  _sign self data required_fields = Ok data' ->
  _sign self data' required_fields = Ok data'.
Proof.
  intros N S. destruct (sign_ok_signed _ _ _ _ S) as [m [M ->]].
  unfold _sign.
  rewrite (signed_data_ext self _ data), M.
  - simpl. now rewrite set_set.
  - intros k I. apply get_set_neq. intros ->. contradiction.
Qed.

Lemma sign_idempotent_witness :
  _sign demo_client
    (Dict.set "sign" (PStr (SHA256.hexdigest "1:23secret"))
       [("a", PStr "1"); ("b", PStr "23")]) ["a"; "b"] =
  Ok (Dict.set "sign" (PStr (SHA256.hexdigest "1:23secret"))
        [("a", PStr "1"); ("b", PStr "23")]).
Proof.
  apply (sign_idempotent demo_client [("a", PStr "1"); ("b", PStr "23")]).
  - simpl. intros [E|[E|[]]]; discriminate.
  - reflexivity.
Defined.

(** ** More on callback verification *)

Lemma remove_absent {V} (k : string) (d : list (string * V)) :
  Dict.get k d = None -> Dict.remove k d = d.
Proof.
  induction d as [|[k0 v0] d IH]; simpl; [reflexivity|].
  destruct (String.eqb k k0); [discriminate|].
  intros H. now rewrite IH.
Qed.

Lemma remove_app {V} (k : string) (d e : list (string * V)) :
  Dict.remove k (d ++ e) = Dict.remove k d ++ Dict.remove k e.
Proof.
  induction d as [|[k0 v0] d IH]; simpl; [reflexivity|].
  destruct (String.eqb k k0); simpl; now rewrite IH.
Qed.

Lemma py_eq_str_refl (s : string) : py_eq (PStr s) (PStr s) = true.
Proof. simpl. apply String.eqb_refl. Qed.

Lemma sign_digest_is_string (self : PiastrixClient) (data : dict) req own :
  sign_digest self data req = Ok own -> exists g, own = PStr g.
Proof.
  rewrite sign_digest_signed.
  destruct (signed_data self data req) as [m|e]; simpl; [|discriminate].
  intros E. injection E as <-. eexists. reflexivity.
Qed.

(** X6: a notification signed by [_sign] over its non-empty fields passes
    [check_callback]: from an allow-listed address, with the expected
    amount and currency equal to the notification's and the status
    ['success'], the call returns normally and leaves the mapping as it
    was. *)
Theorem signed_notification_verifies (self : PiastrixClient)
  (fields notification : dict)
  (remote_ip_address shop_amount shop_currency amount currency : pyval) :
  Dict.get "sign" fields = None ->
  _sign self fields (non_empty_fields fields) = Ok notification ->
  py_in remote_ip_address allowed_ip_address = true ->
  Dict.get "shop_amount" fields = Some amount ->
  py_eq shop_amount amount = true ->
  Dict.get "shop_currency" fields = Some currency ->
  py_eq shop_currency currency = true ->
  Dict.get "status" fields = Some (PStr "success") ->
  check_callback self notification remote_ip_address shop_amount shop_currency =
    (notification, Ok tt).
Proof.
  intros N S I A Ea C Ec T.
  destruct (sign_ok_digest _ _ _ _ S) as [g [D ->]].
  rewrite (set_absent _ _ _ N) in *.
  assert (R : Dict.remove "sign" (fields ++ [("sign", g)]) = fields).
  { rewrite remove_app, (remove_absent _ _ N). simpl. apply app_nil_r. }
  assert (Sg : Dict.get "sign" (fields ++ [("sign", g)]) = Some g).
  { rewrite get_app, N. reflexivity. }
  rewrite (check_callback_signed self _ g g _ _ _ Sg I)
    by (unfold recomputed_sign; now rewrite R).
  rewrite R. f_equal.
  unfold callback_checks, py_ne, getitem.
  destruct (sign_digest_is_string _ _ _ _ D) as [h ->].
  rewrite py_eq_str_refl. simpl.
  rewrite !get_app, A, C, T. simpl. rewrite Ea. simpl. rewrite Ec. reflexivity.
Qed.

Lemma signed_notification_verifies_witness :
  check_callback demo_client demo_notification
    (PStr "37.48.108.181") (PStr "1.00") (PStr "643") =
  (demo_notification, Ok tt).
Proof.
  apply (signed_notification_verifies demo_client
           (Dict.remove "sign" demo_notification) demo_notification
           (PStr "37.48.108.181") (PStr "1.00") (PStr "643")
           (PStr "1.00") (PStr "643")); vm_compute; reflexivity.
Defined.

Lemma sign_digest_shape (self : PiastrixClient) (data : dict) req own :
  sign_digest self data req = Ok own -> is_signature own.
Proof.
  rewrite sign_digest_signed.
  destruct (signed_data self data req) as [m|e]; simpl; [|discriminate].
  intros E. injection E as <-. apply hexdigest_shape.
Qed.

(** X7: a call of [check_callback] that returns normally came from an
    allow-listed address with a ['sign'] entry that is a well-formed
    signature, and it leaves every lookup of the mapping as it was: the
    ['sign'] entry is put back with the value it had, as the last entry. *)
Theorem verified_notification_unchanged (self : PiastrixClient)
  (notification : dict) (remote_ip_address shop_amount shop_currency : pyval) :
  snd (check_callback self notification remote_ip_address shop_amount
                      shop_currency) = Ok tt ->
  let after :=
    fst (check_callback self notification remote_ip_address shop_amount
                        shop_currency) in
  py_in remote_ip_address allowed_ip_address = true /\
  (exists sign,
     Dict.get "sign" notification = Some sign /\ is_signature sign /\
     after = Dict.remove "sign" notification ++ [("sign", sign)]) /\
  (forall k, Dict.get k after = Dict.get k notification).
Proof.
  cbv zeta. intros H.
  destruct (Dict.get "sign" notification) as [sign|] eqn:S.
  2:{ unfold check_callback, pop in H. rewrite S in H. discriminate. }
  destruct (py_in remote_ip_address allowed_ip_address) eqn:I.
  2:{ rewrite (check_callback_untrusted _ _ _ _ _ _ S I) in H. discriminate. }
  destruct (recomputed_sign self notification) as [own|e] eqn:R.
  2:{ rewrite (check_callback_unsigned _ _ _ _ _ _ _ S I R) in H. discriminate. }
  rewrite (check_callback_signed _ _ _ _ _ _ _ S I R) in *. simpl in *.
  assert (E : sign = own).
  { unfold callback_checks, py_ne in H.
    destruct (py_eq sign own) eqn:Q; [|discriminate].
    destruct (sign_digest_is_string _ _ _ _ R) as [g ->].
    now apply py_eq_str. }
  subst own. split; [reflexivity|]. split.
  - exists sign. repeat split. exact (sign_digest_shape _ _ _ _ R).
  - intros k. rewrite <- (set_absent "sign" sign) by apply get_remove_eq.
    destruct (string_dec k "sign") as [->|N].
    + now rewrite get_set_eq.
    + now rewrite get_set_neq, get_remove_neq.
Qed.

Lemma verified_notification_unchanged_witness :
  exists sign,
    Dict.get "sign" demo_notification = Some sign /\ is_signature sign /\
    fst (check_callback demo_client demo_notification
           (PStr "37.48.108.181") (PStr "1.00") (PStr "643")) =
    Dict.remove "sign" demo_notification ++ [("sign", sign)].
Proof.
  refine (proj1 (proj2 (verified_notification_unchanged demo_client
            demo_notification (PStr "37.48.108.181") (PStr "1.00")
            (PStr "643") _))).
  vm_compute. reflexivity.
Defined.

Lemma get_app_present {V} (k : string) (d e : list (string * V)) :
  In k (Dict.keys d) -> Dict.get k (d ++ e) = Dict.get k d.
Proof.
  intros I. rewrite get_app.
  destruct (Dict.get k d) eqn:G; [reflexivity|].
  apply get_none_not_key in G. contradiction.
Qed.

Lemma get_app_other {V} (k k' : string) (v : V) (d : list (string * V)) :
  k' <> k -> Dict.get k' (d ++ [(k, v)]) = Dict.get k' d.
Proof.
  intros N. rewrite get_app. destruct (Dict.get k' d); [reflexivity|].
  simpl. apply String.eqb_neq in N. now rewrite N.
Qed.

Lemma non_empty_fields_keys (d : dict) (k : string) :
  In k (non_empty_fields d) -> In k (Dict.keys d).
Proof. unfold non_empty_fields. intros I. now apply filter_In in I. Qed.

Lemma non_empty_fields_app_empty (d : dict) (k : string) (v : pyval) :
  Dict.get k d = None -> py_in v [PStr ""; PNone] = true ->
  non_empty_fields (d ++ [(k, v)]) = non_empty_fields d.
Proof.
  intros N E. unfold non_empty_fields, Dict.keys.
  rewrite map_app, filter_app. cbn [map fst filter].
  rewrite get_app, N. cbn [Dict.get]. rewrite String.eqb_refl, E.
  cbn [negb]. rewrite app_nil_r. apply filter_ext_in.
  intros key I. now rewrite (get_app_present key d).
Qed.

Lemma recomputed_sign_app_empty (self : PiastrixClient) (d : dict)
  (k : string) (v : pyval) :
  k <> "sign" -> Dict.get k d = None -> py_in v [PStr ""; PNone] = true ->
  recomputed_sign self (d ++ [(k, v)]) = recomputed_sign self d.
Proof.
  intros Nk N E. unfold recomputed_sign. cbv zeta.
  rewrite remove_app. cbn [Dict.remove].
  replace (String.eqb "sign" k) with false
    by (symmetry; apply String.eqb_neq; congruence).
  assert (N' : Dict.get k (Dict.remove "sign" d) = None)
    by now rewrite get_remove_neq.
  rewrite (non_empty_fields_app_empty _ _ _ N' E).
  rewrite !sign_digest_signed.
  rewrite (signed_data_ext self _ (Dict.remove "sign" d)); [reflexivity|].
  intros name I. apply get_app_present. now apply non_empty_fields_keys.
Qed.

(** X8: entries whose value is the empty string or [None] take no part
    in the verification: adding such an entry, under a name the checks do
    not read, leaves the outcome of [check_callback] as it was. *)
Theorem empty_entry_ignored (self : PiastrixClient) (notification : dict)
  (k : string) (v : pyval)
  (remote_ip_address shop_amount shop_currency : pyval) :
  py_in v [PStr ""; PNone] = true ->
  Dict.get k notification = None ->
  ~ In k ["sign"; "shop_amount"; "shop_currency"; "status"] ->
  snd (check_callback self (Dict.set k v notification) remote_ip_address
                      shop_amount shop_currency) =
  snd (check_callback self notification remote_ip_address shop_amount
                      shop_currency).
Proof.
  intros E N X. rewrite (set_absent _ _ _ N).
  assert (G : forall k', In k' ["sign"; "shop_amount"; "shop_currency"; "status"] ->
              Dict.get k' (notification ++ [(k, v)]) = Dict.get k' notification).
  { intros k' I. apply get_app_other. intros ->. contradiction. }
  assert (Nk : k <> "sign") by (intros ->; apply X; now left).
  destruct (Dict.get "sign" notification) as [sign|] eqn:S.
  2:{ unfold check_callback, pop. rewrite G by (simpl; tauto). now rewrite S. }
  assert (S' : Dict.get "sign" (notification ++ [(k, v)]) = Some sign)
    by (rewrite G by (simpl; tauto); exact S).
  destruct (py_in remote_ip_address allowed_ip_address) eqn:I.
  2:{ now rewrite !(check_callback_untrusted _ _ sign) by assumption. }
  pose proof (recomputed_sign_app_empty self notification k v Nk N E) as R'.
  destruct (recomputed_sign self notification) as [own|e] eqn:R.
  - rewrite !(check_callback_signed _ _ sign own) by assumption. simpl.
    unfold callback_checks, getitem. rewrite !G by (simpl; tauto). reflexivity.
  - now rewrite !(check_callback_unsigned _ _ sign _ _ _ e) by assumption.
Qed.

Lemma empty_entry_ignored_witness :
  snd (check_callback demo_client
         (Dict.set "description" (PStr "") demo_notification)
         (PStr "37.48.108.181") (PStr "1.00") (PStr "643")) =
  snd (check_callback demo_client demo_notification
         (PStr "37.48.108.181") (PStr "1.00") (PStr "643")).
Proof.
  apply (empty_entry_ignored demo_client demo_notification "description"
           (PStr "")).
  - reflexivity.
  - reflexivity.
  - simpl. intros [E|[E|[E|[E|[]]]]]; discriminate.
Defined.

(** X9: the checks that follow the recomputation run in a fixed order and
    the first one that fails decides the outcome: a wrong signature is
    reported whatever the amount, currency and status are; then the
    amount, the currency and the status are read and compared in turn, an
    entry that is missing raising the [KeyError] of its name and one that
    differs the error of its check; the call returns normally only when
    the last of them, the status, is ['success']. *)
Theorem check_callback_first_failure (self : PiastrixClient)
  (notification : dict)
  (sign own remote_ip_address shop_amount shop_currency : pyval) :
  Dict.get "sign" notification = Some sign ->
  py_in remote_ip_address allowed_ip_address = true ->
  recomputed_sign self notification = Ok own ->
  let outcome :=
    snd (check_callback self notification remote_ip_address shop_amount
                        shop_currency) in
  (py_eq sign own = false ->
   outcome = client_error "Wrong sign" PiastrixErrorCode.SignError) /\
  (py_eq sign own = true ->
   (Dict.get "shop_amount" notification = None ->
    outcome = Raise (KeyError "shop_amount")) /\
   (forall amount, Dict.get "shop_amount" notification = Some amount ->
      (py_eq shop_amount amount = false ->
       outcome = client_error "Wrong shop_amount"
                              PiastrixErrorCode.ShopAmountError) /\
      (py_eq shop_amount amount = true ->
       (Dict.get "shop_currency" notification = None ->
        outcome = Raise (KeyError "shop_currency")) /\
       (forall currency,
          Dict.get "shop_currency" notification = Some currency ->
          (py_eq shop_currency currency = false ->
           outcome = client_error "Wrong shop_currency"
                                  PiastrixErrorCode.ShopCurrencyError) /\
          (py_eq shop_currency currency = true ->
           (Dict.get "status" notification = None ->
            outcome = Raise (KeyError "status")) /\
           (forall status,
              Dict.get "status" notification = Some status ->
              (py_eq status (PStr "success") = false ->
               outcome = client_error "Wrong status"
                                      PiastrixErrorCode.StatusError) /\
              (py_eq status (PStr "success") = true ->
               outcome = Ok tt))))))).
Proof.
  intros S I R. cbv zeta.
  rewrite (check_callback_signed _ _ _ _ _ _ _ S I R). simpl.
  unfold callback_checks, py_ne, getitem.
  split; [intros ->; reflexivity|]. intros ->. simpl.
  split; [intros ->; reflexivity|]. intros amount ->. simpl.
  split; [intros ->; reflexivity|]. intros ->. simpl.
  split; [intros ->; reflexivity|]. intros currency ->. simpl.
  split; [intros ->; reflexivity|]. intros ->. simpl.
  split; [intros ->; reflexivity|]. intros status ->. simpl.
  split; intros ->; reflexivity.
Qed.

Lemma check_callback_first_failure_witness :
  snd (check_callback demo_client
         [ ("shop_amount", PStr "1.00"); ("shop_currency", PStr "643");
           ("status", PStr "rejected");
           ("sign",
            PStr "377ca8a7eab83ad317bd925e2316667bc573c345adcd9e9f65ceef81e04c9640") ]
         (PStr "37.48.108.181") (PStr "1.00") (PStr "643")) =
  client_error "Wrong status" PiastrixErrorCode.StatusError.
Proof.
  refine (proj1 (proj2 (proj2 (proj2 (proj2 (proj2 (proj2
    (check_callback_first_failure demo_client
       [ ("shop_amount", PStr "1.00"); ("shop_currency", PStr "643");
         ("status", PStr "rejected");
         ("sign",
          PStr "377ca8a7eab83ad317bd925e2316667bc573c345adcd9e9f65ceef81e04c9640") ]
       (PStr "377ca8a7eab83ad317bd925e2316667bc573c345adcd9e9f65ceef81e04c9640")
       (PStr "377ca8a7eab83ad317bd925e2316667bc573c345adcd9e9f65ceef81e04c9640")
       (PStr "37.48.108.181") (PStr "1.00") (PStr "643") _ _ _)
    _) (PStr "1.00") _) _) (PStr "643") _) _) (PStr "rejected") _) _);
    vm_compute; reflexivity.
Defined.

(** ** More on the operations *)

(** X10: [_post] looks at the status before the body.  On a 4xx or 5xx
    response it raises the transport's [HTTPError] whatever the body holds,
    even one that says [result: true]; otherwise a body that is not JSON
    raises the decoding error and a JSON value that is not an object raises
    [TypeError].  The request has been sent in every case. *)
Theorem post_error_status
  (urljoin : string -> string -> string)
  (requests_post : string -> dict -> pyval -> http_outcome)
  (self : PiastrixClient) (endpoint : string) (req_dict : dict) (w : world)
  (status_code : Z) (json : option pyval) :
  requests_post (urljoin (piastrix_url self) endpoint) req_dict (timeout self) =
    Response status_code json ->
  let res := _post urljoin requests_post self endpoint req_dict w in
  fst res =
    w ++ [(urljoin (piastrix_url self) endpoint, req_dict, timeout self)] /\
  (400 <= status_code < 600 -> snd res = Raise (HTTPError status_code)) /\
  (~ 400 <= status_code < 600 ->
   (json = None -> snd res = Raise JSONDecodeError) /\
   (forall v, json = Some v -> (forall d, v <> PDict d) ->
              snd res = Raise TypeError)).
Proof.
  intros R. cbv zeta. unfold _post. simpl. rewrite R.
  split; [reflexivity|]. unfold interpret, raise_for_status.
  split.
  - intros H.
    replace (400 <=? status_code) with true by (symmetry; apply Z.leb_le; lia).
    replace (status_code <? 600) with true by (symmetry; apply Z.ltb_lt; lia).
    reflexivity.
  - intros H.
    assert (E : (400 <=? status_code) && (status_code <? 600) = false).
    { destruct (Z.leb_spec 400 status_code); destruct (Z.ltb_spec status_code 600);
        simpl; try reflexivity; lia. }
    rewrite E. simpl. split.
    + intros ->. reflexivity.
    + intros v -> N. destruct v; try reflexivity. now contradiction (N d).
Qed.

Lemma post_error_status_witness :
  snd (_post demo_urljoin
         (demo_post (Response 503
            (Some (PDict [("result", PBool true); ("data", PInt 1)]))))
         demo_client "shop_balance" [] []) =
  Raise (HTTPError 503).
Proof.
  refine (proj1 (proj2 (post_error_status demo_urljoin
    (demo_post (Response 503
       (Some (PDict [("result", PBool true); ("data", PInt 1)]))))
    demo_client "shop_balance" [] [] 503
    (Some (PDict [("result", PBool true); ("data", PInt 1)])) _)) _).
  - reflexivity.
  - lia.
Defined.

Section Requests.

Variable urljoin : string -> string -> string.
Variable requests_post : string -> dict -> pyval -> http_outcome.
Variable self : PiastrixClient.

Lemma send_signed_spec (endpoint : string) (d : dict) req (w : world) :
  io_bind (io_lift (_sign self d req))
          (fun rd => _post urljoin requests_post self endpoint rd) w =
  match _sign self d req with
  | Ok d' => sent urljoin requests_post self endpoint d' w
  | Raise e => (w, Raise e)
  end.
Proof.
  unfold io_bind, io_lift, sent, _post. now destruct (_sign self d req).
Qed.

Lemma sign_of_strings (data : dict) req (l : list string) :
  getitems data (sorted req) = Ok (map PStr l) ->
  _sign self data req = Ok (signed_body self l data).
Proof.
  intros G. unfold _sign, signed_data, signed_body. rewrite G. simpl.
  now rewrite str_join_strings.
Qed.

Lemma with_extra_lookup (extra_fields : option dict) (form : dict)
  (names : list string) (k : string) :
  collides extra_fields names = false -> In k names ->
  Dict.get k (with_extra extra_fields form) = Dict.get k form.
Proof.
  intros C I. destruct extra_fields as [extra|]; [|reflexivity].
  apply get_update_other. eapply collides_false_other; eassumption.
Qed.

Lemma merge_with_extra (extra_fields : option dict) (form : dict) :
  collides extra_fields (Dict.keys form) = false ->
  merge_extra_fields extra_fields form = Ok (with_extra extra_fields form).
Proof. intros C. now rewrite merge_collides, C. Qed.

Lemma sign_with_extra (extra_fields : option dict) (form : dict) req
  (l : list string) :
  collides extra_fields (Dict.keys form) = false ->
  (forall k, In k req -> In k (Dict.keys form)) ->
  getitems form (sorted req) = Ok (map PStr l) ->
  _sign self (with_extra extra_fields form) req =
    Ok (signed_body self l (with_extra extra_fields form)).
Proof.
  intros C K G. apply sign_of_strings. rewrite <- G.
  apply getitems_ext. intros k I.
  apply (with_extra_lookup _ _ _ _ C), K. now apply sorted_in.
Qed.

Lemma request_sent (endpoint : string) (form : dict)
  (extra_fields : option dict) req (l : list string) (w : world) :
  collides extra_fields (Dict.keys form) = false ->
  (forall k, In k req -> In k (Dict.keys form)) ->
  getitems form (sorted req) = Ok (map PStr l) ->
  io_bind (io_lift (merge_extra_fields extra_fields form))
    (fun rd => io_bind (io_lift (_sign self rd req))
       (fun rd => _post urljoin requests_post self endpoint rd)) w =
  sent urljoin requests_post self endpoint (signed_body self l (with_extra extra_fields form)) w.
Proof.
  intros C K G. unfold io_bind at 1. unfold io_lift at 1.
  rewrite (merge_with_extra _ _ C), send_signed_spec.
  now rewrite (sign_with_extra _ _ _ l C K G).
Qed.

(** X11: with string arguments, a string [shop_id] and extra fields that
    do not collide, [bill] sends exactly one request, to [bill/create].
    Its body is the five fields, then the extra fields, with ['sign'] the
    digest of [payer_currency:shop_amount:shop_currency:shop_id:shop_order_id]
    followed by the secret; the extra fields are sent but not signed, and
    an extra field named ['sign'] is overwritten by the digest.  The result
    is what [_post] makes of the response. *)
Theorem bill_request (payer_currency shop_amount shop_currency shop_order_id
  sid : string) (extra_fields : option dict) (w : world) :
  shop_id self = PStr sid ->
  collides extra_fields
    ["payer_currency"; "shop_amount"; "shop_currency"; "shop_id";
     "shop_order_id"] = false ->
  bill urljoin requests_post self (PStr payer_currency) (PStr shop_amount)
       (PStr shop_currency) (PStr shop_order_id) extra_fields w =
  sent urljoin requests_post self "bill/create"
    (signed_body self [payer_currency; shop_amount; shop_currency; sid; shop_order_id]
       (with_extra extra_fields
          [ ("payer_currency", PStr payer_currency);
            ("shop_amount", PStr shop_amount);
            ("shop_currency", PStr shop_currency); ("shop_id", PStr sid);
            ("shop_order_id", PStr shop_order_id) ])) w.
Proof.
  intros S C. unfold bill. rewrite S.
  apply request_sent; [exact C | simpl; tauto | reflexivity].
Qed.


(** X13: with an [amount_type] of ['receive_amount'] or
    ['writeoff_amount'], string arguments and extra fields that do not
    collide, [transfer] sends one request to [transfer/create], signed over
    [amount:amount_type:payee_account:payee_currency:shop_currency:shop_id:shop_payment_id]. *)
Theorem transfer_request (amount amount_type payee_account payee_currency
  shop_currency payment_id sid : string) (extra_fields : option dict)
  (w : world) :
  shop_id self = PStr sid ->
  amount_type = "receive_amount" \/ amount_type = "writeoff_amount" ->
  collides extra_fields
    ["amount"; "amount_type"; "payee_account"; "payee_currency";
     "shop_currency"; "shop_id"; "shop_payment_id"] = false ->
  transfer urljoin requests_post self (PStr amount) (PStr amount_type)
           (PStr payee_account) (PStr payee_currency) (PStr shop_currency)
           (PStr payment_id) extra_fields w =
  sent urljoin requests_post self "transfer/create"
    (signed_body self [amount; amount_type; payee_account; payee_currency;
             shop_currency; sid; payment_id]
       (with_extra extra_fields
          [ ("amount", PStr amount); ("amount_type", PStr amount_type);
            ("payee_account", PStr payee_account);
            ("payee_currency", PStr payee_currency);
            ("shop_currency", PStr shop_currency); ("shop_id", PStr sid);
            ("shop_payment_id", PStr payment_id) ])) w.
Proof.
  intros S T C. unfold transfer. rewrite S.
  match goal with
  | |- context [merge_extra_fields extra_fields ?f] => set (form := f)
  end.
  change (collides extra_fields (Dict.keys form) = false) in C.
  unfold io_bind at 1. unfold io_lift at 1.
  rewrite (merge_with_extra _ _ C).
  replace (py_in (PStr amount_type) _) with true
    by (destruct T as [-> | ->]; reflexivity).
  cbn [negb]. rewrite send_signed_spec.
  rewrite (sign_with_extra extra_fields form _
             [amount; amount_type; payee_account; payee_currency;
              shop_currency; sid; payment_id] C);
    [reflexivity | simpl; tauto | reflexivity].
Qed.

Lemma request_sent_plain (endpoint : string) (form : dict) req
  (l : list string) (w : world) :
  getitems form (sorted req) = Ok (map PStr l) ->
  io_bind (io_lift (_sign self form req))
    (fun rd => _post urljoin requests_post self endpoint rd) w =
  sent urljoin requests_post self endpoint (signed_body self l form) w.
Proof.
  intros G. now rewrite send_signed_spec, (sign_of_strings _ _ l G).
Qed.

(** X14: with an [amount_type] of ['ps_amount'] or ['shop_amount'] and
    string arguments, [withdraw_try] sends one request to [withdraw/try]
    signed over [amount:amount_type:payway:shop_currency:shop_id], and
    [withdraw], its extra fields not colliding, one to [withdraw/create]
    signed over
    [account:amount:amount_type:payway:shop_currency:shop_id:shop_payment_id].
    The account details of [withdraw] are sent, after the fixed fields, but
    take no part in the signature. *)
Theorem withdraw_requests (account amount amount_type payway shop_currency
  payment_id sid : string) (account_details : option pyval)
  (extra_fields : option dict) (w : world) :
  shop_id self = PStr sid ->
  amount_type = "ps_amount" \/ amount_type = "shop_amount" ->
  withdraw_try urljoin requests_post self (PStr amount) (PStr amount_type)
               (PStr payway) (PStr shop_currency) w =
    sent urljoin requests_post self "withdraw/try"
      (signed_body self [amount; amount_type; payway; shop_currency; sid]
         [ ("amount", PStr amount); ("amount_type", PStr amount_type);
           ("payway", PStr payway); ("shop_currency", PStr shop_currency);
           ("shop_id", PStr sid) ]) w /\
  (collides extra_fields
     (["account"; "amount"; "amount_type"; "payway"; "shop_currency";
       "shop_id"; "shop_payment_id"] ++
      match account_details with
      | Some _ => ["account_details"]
      | None => []
      end) = false ->
   withdraw urljoin requests_post self (PStr account) (PStr amount)
            (PStr amount_type) (PStr payway) (PStr shop_currency)
            (PStr payment_id) account_details extra_fields w =
     sent urljoin requests_post self "withdraw/create"
       (signed_body self
          [account; amount; amount_type; payway; shop_currency; sid;
           payment_id]
          (with_extra extra_fields
             ([ ("account", PStr account); ("amount", PStr amount);
                ("amount_type", PStr amount_type); ("payway", PStr payway);
                ("shop_currency", PStr shop_currency); ("shop_id", PStr sid);
                ("shop_payment_id", PStr payment_id) ] ++
              match account_details with
              | Some details => [("account_details", details)]
              | None => []
              end))) w).
Proof.
  intros S T. split.
  - unfold withdraw_try. rewrite S.
    replace (py_in (PStr amount_type) _) with true
      by (destruct T as [-> | ->]; reflexivity).
    cbn [negb]. now apply request_sent_plain.
  - intros C. unfold withdraw. rewrite S.
    match goal with
    | |- context [merge_extra_fields extra_fields ?f] => set (form := f)
    end.
    assert (F : form =
                [ ("account", PStr account); ("amount", PStr amount);
                  ("amount_type", PStr amount_type); ("payway", PStr payway);
                  ("shop_currency", PStr shop_currency); ("shop_id", PStr sid);
                  ("shop_payment_id", PStr payment_id) ] ++
                match account_details with
                | Some details => [("account_details", details)]
                | None => []
                end).
    { subst form. destruct account_details; reflexivity. }
    clearbody form. subst form.
    match goal with
    | |- context [merge_extra_fields extra_fields ?f] => set (form := f)
    end.
    assert (C' : collides extra_fields (Dict.keys form) = false).
    { subst form. destruct account_details; exact C. }
    unfold io_bind at 1. unfold io_lift at 1.
    rewrite (merge_with_extra _ _ C').
    replace (py_in (PStr amount_type) _) with true
      by (destruct T as [-> | ->]; reflexivity).
    cbn [negb]. rewrite send_signed_spec.
    rewrite (sign_with_extra extra_fields form _
               [account; amount; amount_type; payway; shop_currency; sid;
                payment_id] C');
      [reflexivity | | subst form; destruct account_details; reflexivity].
    intros k I. subst form. unfold Dict.keys. rewrite map_app, in_app_iff.
    left. simpl in *. tauto.
Qed.


(** [str(datetime.now())] as the status queries read it. *)
Variable now : string.


Lemma only_signed_fail {A : Type} (r : result A) : sends_only_signed (io_lift r).
Proof. intros w. now left. Qed.

Lemma only_signed_after {A B : Type} (r : result A) (k : A -> io B) :
  (forall a, sends_only_signed (k a)) ->
  sends_only_signed (io_bind (io_lift r) k).
Proof.
  intros H w. unfold io_bind, io_lift.
  destruct r as [a|e]; [apply H | now left].
Qed.

Lemma only_signed_send (endpoint : string) (req : list string) (d : dict) :
  sends_only_signed
    (io_bind (io_lift (_sign self d req))
             (fun rd => _post urljoin requests_post self endpoint rd)).
Proof.
  intros w. rewrite send_signed_spec.
  destruct (_sign self d req) as [d'|e] eqn:S; [|now left].
  right. destruct (sign_ok_signed _ _ _ _ S) as [m [_ ->]].
  unfold sent. simpl. do 4 eexists.
  split; [reflexivity|]. split; [apply get_set_eq | apply hexdigest_shape].
Qed.

(** X17: no operation ever sends an unsigned request.  Whatever the
    arguments and whatever the transport answers, a call of any of the
    eleven operations either adds nothing to the log of requests or adds
    exactly one request whose body has a ['sign'] entry of 64 lowercase
    hexadecimal digits. *)
Theorem every_request_signed :
  sends_only_signed (check_balance urljoin requests_post now self) /\
  (forall payer_currency shop_amount shop_currency shop_order_id extra_fields,
     sends_only_signed
       (bill urljoin requests_post self payer_currency shop_amount
             shop_currency shop_order_id extra_fields)) /\
  (forall amount currency shop_order_id payway extra_fields,
     sends_only_signed
       (invoice_try urljoin requests_post self amount currency shop_order_id
                    payway extra_fields) /\
     sends_only_signed
       (invoice urljoin requests_post self amount currency shop_order_id
                payway extra_fields)) /\
  (forall id,
     sends_only_signed (transfer_status urljoin requests_post now self id) /\
     sends_only_signed (withdraw_id urljoin requests_post now self id) /\
     sends_only_signed (shop_payment_id urljoin requests_post now self id)) /\
  (forall amount amount_type payee_account payee_currency shop_currency
          payment_id extra_fields,
     sends_only_signed
       (transfer urljoin requests_post self amount amount_type payee_account
                 payee_currency shop_currency payment_id extra_fields)) /\
  (forall amount amount_type payway shop_currency,
     sends_only_signed
       (withdraw_try urljoin requests_post self amount amount_type payway
                     shop_currency)) /\
  (forall account amount amount_type payway shop_currency payment_id
          account_details extra_fields,
     sends_only_signed
       (withdraw urljoin requests_post self account amount amount_type payway
                 shop_currency payment_id account_details extra_fields)) /\
  (forall account amount payway account_details,
     sends_only_signed
       (check_account urljoin requests_post self account amount payway
                      account_details)).
Proof.
  unfold check_balance, bill, invoice_try, invoice, transfer_status,
    withdraw_id, shop_payment_id, transfer, withdraw_try, withdraw,
    check_account.
  repeat split; intros;
    repeat first
      [ apply only_signed_send
      | apply only_signed_fail
      | apply only_signed_after; intros
      | match goal with
        | |- sends_only_signed (if ?c then _ else _) => destruct c
        end ].
Qed.

Lemma sign_ok_lookup (data data' : dict) req (k : string) :
  _sign self data req = Ok data' -> In k req ->
  exists s, Dict.get k data = Some (PStr s).
Proof.
  intros S I. destruct (sign_ok_signed _ _ _ _ S) as [m [M _]].
  unfold signed_data in M.
  destruct (getitems data (sorted req)) as [vs|] eqn:G; [|discriminate].
  simpl in M. destruct (str_join ":" vs) as [j|] eqn:J; [|discriminate].
  destruct (str_join_ok_strings _ _ _ J) as [l ->].
  apply (getitems_ok_lookup _ _ _ G). now apply sorted_in.
Qed.

Lemma nothing_fail {A : Type} (r : result A) : sends_nothing (io_lift r).
Proof. intros w. reflexivity. Qed.

Lemma nothing_after {A B : Type} (r : result A) (k : A -> io B) :
  (forall a, r = Ok a -> sends_nothing (k a)) ->
  sends_nothing (io_bind (io_lift r) k).
Proof.
  intros H w. unfold io_bind, io_lift.
  destruct r as [a|e]; [now apply H | reflexivity].
Qed.

Lemma nothing_unsigned (endpoint : string) (req : list string) (d : dict)
  (k : string) (v : pyval) :
  In k req -> Dict.get k d = Some v -> (forall s, v <> PStr s) ->
  sends_nothing
    (io_bind (io_lift (_sign self d req))
             (fun rd => _post urljoin requests_post self endpoint rd)).
Proof.
  intros I G N w. rewrite send_signed_spec.
  destruct (_sign self d req) as [d'|e] eqn:S; [|reflexivity].
  destruct (sign_ok_lookup _ _ _ k S I) as [s E].
  rewrite G in E. injection E as E. now contradiction (N s).
Qed.

Lemma merged_lookup (extra_fields : option dict) (form rd : dict) (k : string)
  (v : pyval) :
  merge_extra_fields extra_fields form = Ok rd ->
  Dict.get k form = Some v -> Dict.get k rd = Some v.
Proof.
  rewrite merge_collides.
  destruct (collides extra_fields (Dict.keys form)) eqn:C; [discriminate|].
  intros E G. injection E as <-.
  change (Dict.get k (with_extra extra_fields form) = Some v).
  rewrite (with_extra_lookup _ _ _ k C); [exact G|].
  destruct (in_dec string_dec k (Dict.keys form)) as [I|N]; [assumption|].
  apply get_none_not_key in N. congruence.
Qed.

(** X18: every request signs the shop identifier, so a client whose
    [shop_id] is not a string (an integer, say) never sends anything: each
    of the eleven operations fails before the transport is reached. *)
Theorem non_string_shop_id_sends_nothing :
  (forall s, shop_id self <> PStr s) ->
  sends_nothing (check_balance urljoin requests_post now self) /\
  (forall payer_currency shop_amount shop_currency shop_order_id extra_fields,
     sends_nothing
       (bill urljoin requests_post self payer_currency shop_amount
             shop_currency shop_order_id extra_fields)) /\
  (forall amount currency shop_order_id payway extra_fields,
     sends_nothing
       (invoice_try urljoin requests_post self amount currency shop_order_id
                    payway extra_fields) /\
     sends_nothing
       (invoice urljoin requests_post self amount currency shop_order_id
                payway extra_fields)) /\
  (forall id,
     sends_nothing (transfer_status urljoin requests_post now self id) /\
     sends_nothing (withdraw_id urljoin requests_post now self id) /\
     sends_nothing (shop_payment_id urljoin requests_post now self id)) /\
  (forall amount amount_type payee_account payee_currency shop_currency
          payment_id extra_fields,
     sends_nothing
       (transfer urljoin requests_post self amount amount_type payee_account
                 payee_currency shop_currency payment_id extra_fields)) /\
  (forall amount amount_type payway shop_currency,
     sends_nothing
       (withdraw_try urljoin requests_post self amount amount_type payway
                     shop_currency)) /\
  (forall account amount amount_type payway shop_currency payment_id
          account_details extra_fields,
     sends_nothing
       (withdraw urljoin requests_post self account amount amount_type payway
                 shop_currency payment_id account_details extra_fields)) /\
  (forall account amount payway account_details,
     sends_nothing
       (check_account urljoin requests_post self account amount payway
                      account_details)).
Proof.
  intros N.
  unfold check_balance, bill, invoice_try, invoice, transfer_status,
    withdraw_id, shop_payment_id, transfer, withdraw_try, withdraw,
    check_account.
  repeat split; intros;
    repeat first
      [ apply nothing_fail
      | match goal with
        | |- sends_nothing (if ?c then _ else _) => destruct c
        | M : merge_extra_fields _ _ = Ok ?rd
          |- sends_nothing (io_bind (io_lift (_sign _ ?rd _)) _) =>
            apply (nothing_unsigned _ _ _ "shop_id" (shop_id self));
            [ simpl; tauto
            | apply (merged_lookup _ _ _ _ _ M);
              try (destruct account_details); reflexivity
            | exact N ]
        | |- sends_nothing (io_bind (io_lift (_sign _ _ _)) _) =>
            apply (nothing_unsigned _ _ _ "shop_id" (shop_id self));
            [ simpl; tauto
            | try (destruct account_details); reflexivity
            | exact N ]
        end
      | apply nothing_after; intros ].
Qed.

End Requests.

Lemma bill_request_witness :
  bill demo_urljoin (demo_post Failed) demo_client
       (PStr "643") (PStr "10.00") (PStr "643") (PStr "o-1")
       (Some [("description", PStr "book"); ("sign", PStr "mine")]) [] =
  sent demo_urljoin (demo_post Failed) demo_client "bill/create"
    (signed_body demo_client ["643"; "10.00"; "643"; "5"; "o-1"]
       (with_extra (Some [("description", PStr "book"); ("sign", PStr "mine")])
          [ ("payer_currency", PStr "643"); ("shop_amount", PStr "10.00");
            ("shop_currency", PStr "643"); ("shop_id", PStr "5");
            ("shop_order_id", PStr "o-1") ])) [].
Proof.
  refine (bill_request demo_urljoin (demo_post Failed) demo_client
            "643" "10.00" "643" "o-1" "5"
            (Some [("description", PStr "book"); ("sign", PStr "mine")]) []
            _ _); reflexivity.
Defined.


(** The digest [invoice] sends for these values is the SHA-256 of
    ["10.00:643:card:5:o-1secret"]. *)
Example invoice_signature :
  Dict.get "sign"
    (signed_body demo_client ["10.00"; "643"; "card"; "5"; "o-1"] []) =
  Some (PStr "b3424873b2624dd10bc3649724552d514b2acd35661b489b4c05d7c0343465c9").
Proof. vm_compute. reflexivity. Qed.

Lemma transfer_request_witness :
  transfer demo_urljoin (demo_post Failed) demo_client
           (PStr "10") (PStr "writeoff_amount") (PStr "acc") (PStr "643")
           (PStr "643") (PStr "p-1") None [] =
  sent demo_urljoin (demo_post Failed) demo_client "transfer/create"
    (signed_body demo_client
       ["10"; "writeoff_amount"; "acc"; "643"; "643"; "5"; "p-1"]
       [ ("amount", PStr "10"); ("amount_type", PStr "writeoff_amount");
         ("payee_account", PStr "acc"); ("payee_currency", PStr "643");
         ("shop_currency", PStr "643"); ("shop_id", PStr "5");
         ("shop_payment_id", PStr "p-1") ]) [].
Proof.
  refine (transfer_request demo_urljoin (demo_post Failed) demo_client
            "10" "writeoff_amount" "acc" "643" "643" "p-1" "5" None []
            _ _ _); try reflexivity.
  right. reflexivity.
Defined.

Lemma withdraw_requests_witness :
  withdraw demo_urljoin (demo_post Failed) demo_client
           (PStr "acc") (PStr "10") (PStr "ps_amount") (PStr "card")
           (PStr "643") (PStr "p-1")
           (Some (PDict [("name", PStr "N")])) None [] =
  sent demo_urljoin (demo_post Failed) demo_client "withdraw/create"
    (signed_body demo_client
       ["acc"; "10"; "ps_amount"; "card"; "643"; "5"; "p-1"]
       [ ("account", PStr "acc"); ("amount", PStr "10");
         ("amount_type", PStr "ps_amount"); ("payway", PStr "card");
         ("shop_currency", PStr "643"); ("shop_id", PStr "5");
         ("shop_payment_id", PStr "p-1");
         ("account_details", PDict [("name", PStr "N")]) ]) [].
Proof.
  refine (proj2 (withdraw_requests demo_urljoin (demo_post Failed) demo_client
                   "acc" "10" "ps_amount" "card" "643" "p-1" "5"
                   (Some (PDict [("name", PStr "N")])) None [] _ _) _);
    try reflexivity.
  left. reflexivity.
Defined.



Lemma non_string_shop_id_sends_nothing_witness :
  fst (check_balance demo_urljoin
         (demo_post (Response 200 (Some (PDict [("result", PBool true)]))))
         "2024-01-01 00:00:00.000001" int_client []) = [].
Proof.
  refine (proj1 (non_string_shop_id_sends_nothing demo_urljoin
            (demo_post (Response 200 (Some (PDict [("result", PBool true)]))))
            int_client "2024-01-01 00:00:00.000001" _) []).
  intros s. discriminate.
Defined.

(** ** Notifications with values that are not strings *)

Lemma str_join_raise (sep : string) (items : list pyval) (e : exn) :
  str_join sep items = Raise e -> e = TypeError.
Proof.
  induction items as [|v items IH]; [discriminate|].
  destruct v as [| | | | s | |];
    try (simpl; destruct items; intros E; now injection E).
  destruct items as [|v' items]; [discriminate|].
  rewrite str_join_cons by discriminate.
  destruct (str_join sep (v' :: items)) as [rest|e'] eqn:R; [discriminate|].
  intros E. injection E as <-. now apply IH.
Qed.

Lemma getitems_present (d : dict) (names : list string) :
  (forall k, In k names -> In k (Dict.keys d)) ->
  exists vs, getitems d names = Ok vs /\
             forall k v, In k names -> Dict.get k d = Some v -> In v vs.
Proof.
  induction names as [|x names IH]; intros H.
  - exists []. split; [reflexivity | intros k v []].
  - destruct IH as [vs [G I]]; [intros; apply H; now right|].
    destruct (Dict.get x d) as [y|] eqn:X.
    + exists (y :: vs). split; [simpl; unfold getitem; now rewrite X, G|].
      intros k v [<-|J] E; [left; congruence | right; now apply (I k)].
    + apply get_none_not_key in X. exfalso. apply X, H. now left.
Qed.

(** The recomputation raises [TypeError] as soon as one non-empty entry
    is not a string. *)
Lemma recomputed_sign_non_string (self : PiastrixClient) (notification : dict)
  (k : string) (v : pyval) :
  k <> "sign" -> Dict.get k notification = Some v ->
  py_in v [PStr ""; PNone] = false -> (forall s, v <> PStr s) ->
  recomputed_sign self notification = Raise TypeError.
Proof.
  intros Nk G E N. unfold recomputed_sign. cbv zeta.
  set (rest := Dict.remove "sign" notification).
  assert (Gr : Dict.get k rest = Some v)
    by (unfold rest; now rewrite get_remove_neq).
  assert (Ik : In k (non_empty_fields rest)).
  { unfold non_empty_fields. apply filter_In. split.
    - destruct (in_dec string_dec k (Dict.keys rest)) as [I|I]; [assumption|].
      apply get_none_not_key in I. congruence.
    - now rewrite Gr, E. }
  destruct (getitems_present rest (sorted (non_empty_fields rest)))
    as [vs [Gs I]].
  { intros name J. apply non_empty_fields_keys. now apply sorted_in. }
  rewrite sign_digest_signed. unfold signed_data. rewrite Gs. simpl.
  destruct (str_join ":" vs) as [j|e] eqn:J.
  - destruct (str_join_ok_strings _ _ _ J) as [l ->].
    assert (Iv : In v (map PStr l)) by (apply (I k); [now apply sorted_in | exact Gr]).
    apply in_map_iff in Iv. destruct Iv as [s [<- _]]. now contradiction (N s).
  - simpl. now rewrite (str_join_raise _ _ _ J).
Qed.

(** X19: a notification from an allow-listed address in which some entry
    other than ['sign'] holds a non-empty value that is not a string (a JSON
    number, say) cannot be verified: [check_callback] raises [TypeError]
    and leaves the mapping without its ['sign'] entry. *)
Theorem non_string_notification_raises (self : PiastrixClient)
  (notification : dict) (sign : pyval) (k : string) (v : pyval)
  (remote_ip_address shop_amount shop_currency : pyval) :
  Dict.get "sign" notification = Some sign ->
  py_in remote_ip_address allowed_ip_address = true ->
  k <> "sign" -> Dict.get k notification = Some v ->
  py_in v [PStr ""; PNone] = false -> (forall s, v <> PStr s) ->
  check_callback self notification remote_ip_address shop_amount shop_currency =
    (Dict.remove "sign" notification, Raise TypeError).
Proof.
  intros S I Nk G E N.
  apply (check_callback_unsigned _ _ sign); try assumption.
  now apply (recomputed_sign_non_string self notification k v).
Qed.

Lemma non_string_notification_raises_witness :
  check_callback demo_client
    [("shop_amount", PFloat 1%float); ("status", PStr "success");
     ("sign", PStr "00")]
    (PStr "37.48.108.181") (PFloat 1%float) (PStr "643") =
  (Dict.remove "sign"
     [("shop_amount", PFloat 1%float); ("status", PStr "success");
      ("sign", PStr "00")],
   Raise TypeError).
Proof.
  refine (non_string_notification_raises demo_client
            [("shop_amount", PFloat 1%float); ("status", PStr "success");
             ("sign", PStr "00")] (PStr "00") "shop_amount" (PFloat 1%float)
            (PStr "37.48.108.181") (PFloat 1%float) (PStr "643")
            _ _ _ _ _ _); try reflexivity; discriminate.
Defined.

Lemma py_eq_numeric (x a : pyval) (n : pynum) :
  num_of x = Some n -> py_eq x a = true -> exists m, num_of a = Some m.
Proof.
  intros X E.
  destruct x; try discriminate; destruct a; simpl in E; try discriminate;
    eexists; reflexivity.
Qed.

Lemma numeric_not_empty (a : pyval) (m : pynum) :
  num_of a = Some m ->
  py_in a [PStr ""; PNone] = false /\ forall s, a <> PStr s.
Proof.
  intros A. destruct a; try discriminate; split; try reflexivity;
    intros s; discriminate.
Qed.

(** X20: [check_callback] compares the expected amount and currency with
    the notification's entries as they are.  An expected amount or currency
    given as a number ([int], [float] or [bool]) therefore never verifies:
    the entry it would equal is a number too, and a notification with such
    an entry cannot be signed.  The call never returns normally. *)
Theorem numeric_expectation_never_verifies (self : PiastrixClient)
  (notification : dict) (remote_ip_address shop_amount shop_currency : pyval) :
  (exists n, num_of shop_amount = Some n) \/
  (exists n, num_of shop_currency = Some n) ->
  snd (check_callback self notification remote_ip_address shop_amount
                      shop_currency) <> Ok tt.
Proof.
  intros Hn H.
  destruct (Dict.get "sign" notification) as [sign|] eqn:S.
  2:{ unfold check_callback, pop in H. rewrite S in H. discriminate. }
  destruct (py_in remote_ip_address allowed_ip_address) eqn:I.
  2:{ rewrite (check_callback_untrusted _ _ _ _ _ _ S I) in H. discriminate. }
  destruct (recomputed_sign self notification) as [own|e] eqn:R.
  2:{ rewrite (check_callback_unsigned _ _ _ _ _ _ _ S I R) in H. discriminate. }
  rewrite (check_callback_signed _ _ _ _ _ _ _ S I R) in H. simpl in H.
  unfold callback_checks, py_ne, getitem in H.
  destruct (py_eq sign own); [|discriminate]. simpl in H.
  destruct (Dict.get "shop_amount" notification) as [a|] eqn:A; [|discriminate].
  simpl in H. destruct (py_eq shop_amount a) eqn:Ea; [|discriminate].
  simpl in H.
  destruct (Dict.get "shop_currency" notification) as [c|] eqn:C; [|discriminate].
  simpl in H. destruct (py_eq shop_currency c) eqn:Ec; [|discriminate].
  destruct Hn as [[n Hn]|[n Hn]].
  - destruct (py_eq_numeric _ _ _ Hn Ea) as [m M].
    destruct (numeric_not_empty _ _ M) as [E N].
    rewrite (recomputed_sign_non_string self notification "shop_amount" a)
      in R; (discriminate || assumption).
  - destruct (py_eq_numeric _ _ _ Hn Ec) as [m M].
    destruct (numeric_not_empty _ _ M) as [E N].
    rewrite (recomputed_sign_non_string self notification "shop_currency" c)
      in R; (discriminate || assumption).
Qed.

Lemma numeric_expectation_never_verifies_witness :
  snd (check_callback demo_client demo_notification
         (PStr "37.48.108.181") (PFloat 1%float) (PStr "643")) <> Ok tt.
Proof.
  apply (numeric_expectation_never_verifies demo_client demo_notification).
  left. eexists. reflexivity.
Defined.
